(** * convex-js: the [deploy] command and the deployment helpers

    A shallow embedding of [src/cli/deploy.ts] and of the helpers of
    [src/cli/lib/deployment.ts] it relies on (admin-key parsing, the
    [.gitignore] edit, the [CONVEX_DEPLOYMENT] write).

    JavaScript strings are modelled as [string]; the only separators the
    code splits on are the ASCII characters [:], [|] and the newline.
    The process environment and the file system are finite maps from
    names to contents. *)

From Stdlib Require Import ZArith Lia Ascii.
From stdpp Require Import base strings list gmap.

(** ** JavaScript values *)

Module JS.

(** A value that may be absent, at run time: the two absent values are
    distinct, and [===] tells them apart. *)
Inductive js (T : Type) : Type :=
| undefined
| null
| val (v : T).
Arguments undefined {T}.
Arguments null {T}.
Arguments val {T} v.

(** Static types [T | undefined] and [T | null] are both modelled as
    [option T]; these are the run-time values they stand for. *)
Definition optional {T} (x : option T) : js T :=
  match x with Some v => val v | None => undefined end.
Definition nullable {T} (x : option T) : js T :=
  match x with Some v => val v | None => null end.

(** [x === null] *)
Definition is_null {T} (x : js T) : bool :=
  match x with null => true | _ => false end.

(** [x === undefined] *)
Definition is_undefined {T} (x : js T) : bool :=
  match x with undefined => true | _ => false end.

(** [x ?? y] for [y : T | null]; the result has type [T | null]. *)
Definition coalesce {T} (x : js T) (y : option T) : option T :=
  match x with val v => Some v | _ => y end.

(** [!!x], and [x] as a condition, for [x : boolean | undefined]. *)
Definition truthy (x : option bool) : bool :=
  match x with Some b => b | None => false end.

(** The character with code 34 and the line feed, as one-character strings. *)
Definition dq : string := String "034"%char EmptyString.
Definition nl : string := String "010"%char EmptyString.

(** [s.split(sep)] for a one-character separator: the segments between
    the occurrences of [sep], in order; never empty. *)
Fixpoint split (sep : ascii) (s : string) : list string :=
  match s with
  | EmptyString => [EmptyString]
  | String c s' =>
      if Ascii.eqb c sep then EmptyString :: split sep s'
      else match split sep s' with
           | [] => [String c EmptyString]
           | seg :: rest => String c seg :: rest
           end
  end.
Arguments split sep%_char s%_string.

(** [arr.at(i)]: negative indices count from the end; [None] stands for
    [undefined]. *)
Definition at_ {A} (arr : list A) (i : Z) : option A :=
  let k := (if i <? 0 then i + Z.of_nat (length arr) else i)%Z in
  if (k <? 0)%Z then None else arr !! Z.to_nat k.

(** [arr.some(p)] *)
Definition some {A} (p : A -> bool) (arr : list A) : bool := existsb p arr.

End JS.
Import JS.

(** ** Substrings, as the documentation words them *)

Module Substring.

(** [c] occurs in [s]. *)
Fixpoint contains (c : ascii) (s : string) : bool :=
  match s with
  | EmptyString => false
  | String a s' => Ascii.eqb a c || contains c s'
  end.

(** The part of [s] before the first [c]; all of [s] without a [c]. *)
Fixpoint before_first (c : ascii) (s : string) : string :=
  match s with
  | EmptyString => EmptyString
  | String a s' => if Ascii.eqb a c then EmptyString else String a (before_first c s')
  end.

(** The part of [s] after the last [c]; all of [s] without a [c]. *)
Fixpoint after_last (c : ascii) (s : string) : string :=
  match s with
  | EmptyString => EmptyString
  | String a s' =>
      if contains c s' then after_last c s'
      else if Ascii.eqb a c then s' else String a s'
  end.

Arguments contains c%_char s%_string.
Arguments before_first c%_char s%_string.
Arguments after_last c%_char s%_string.

End Substring.
Import Substring.

(** ** [src/cli/lib/deployment.ts] *)

Definition ENV_VAR_FILE_PATH : string := ".env.local".
Definition CONVEX_DEPLOYMENT_VAR_NAME : string := "CONVEX_DEPLOYMENT".

(** [deployment.split(":").at(-1)!]; the assertion [!] is erased at run
    time, and [split] never returns an empty array
    (see [stripDeploymentTypePrefix_defined]). *)
Definition stripDeploymentTypePrefix_raw (deployment : string) : option string :=
  at_ (split ":" deployment) (-1).

Definition stripDeploymentTypePrefix (deployment : string) : string :=
  default EmptyString (stripDeploymentTypePrefix_raw deployment).

Definition deploymentTypeFromAdminKey (adminKey : string) : string :=
  let parts := split ":" adminKey in
  if (length parts =? 1)%nat then "prod"
  else default EmptyString (at_ parts 0).

Definition deploymentNameFromAdminKey (adminKey : string) : option string :=
  let parts := split "|" adminKey in
  if (length parts =? 1)%nat then None
  else if negb (String.eqb (deploymentTypeFromAdminKey adminKey) "prod") then None
  else Some (stripDeploymentTypePrefix (default EmptyString (parts !! 0%nat))).

Definition changesToGitIgnore (existingFile : option string) : option string :=
  match existingFile with
  | None => Some (ENV_VAR_FILE_PATH +:+ nl)
  | Some existingFile =>
      let gitIgnoreLines := split "010" existingFile in
      let envVarFileIgnored :=
        some (fun line =>
                String.eqb line ".env.local" ||
                String.eqb line ".env.*" ||
                String.eqb line ".env*" ||
                String.eqb line "*.local" ||
                String.eqb line ".env*.local") gitIgnoreLines in
      if negb envVarFileIgnored
      then Some (existingFile +:+ nl +:+ ENV_VAR_FILE_PATH +:+ nl)
      else None
  end.

(** ** Effects: termination, state and the trace of what the command did *)

(** ["enable" | "try" | "disable"] and ["enable" | "disable"] *)
Inductive Typecheck := TcEnable | TcTry | TcDisable.
Inductive Toggle := Enable | Disable.

Definition Toggle_eqb (a b : Toggle) : bool :=
  match a, b with Enable, Enable | Disable, Disable => true | _, _ => false end.

(** What the command line hands to the action; an option that was not
    given is [undefined], here [None]. *)
Record CmdOptions := {
  verbose : option bool;
  dryRun : option bool;
  yes : option bool;
  typecheck : Typecheck;
  codegen : Toggle;
  cmd : option string;
  cmdUrlEnvVarName : option string;
  previewRun : option string;
  previewCreate : option string;
  previewName : option string;
  checkBuildEnvironment : Toggle;
  debugBundlePath : option string;
  debug : option bool;
  adminKey : option string;
  url : option string;
  logDeploymentName : option bool
}.

Record PushOptions := {
  po_adminKey : string;
  po_verbose : bool;
  po_dryRun : bool;
  po_typecheck : Typecheck;
  po_debug : bool;
  po_debugBundlePath : option string;
  po_codegen : bool;
  po_url : string
}.

Record RunCommandOptions := {
  rc_cmdUrlEnvVarName : option string;
  rc_cmd : option string;
  rc_dryRun : option bool;
  rc_url : string
}.

(** Everything observable the command does, in order. *)
Inductive Event :=
| LogError (msg : string)
| LogFailure (msg : string)
| LogFinishedStep (msg : string)
| LogMessage (msg : string)
| LogOutput (msg : string)
| ShowSpinner (msg : string)
| UsageStateWarning
| BigBrainAPI (method path identifier : string)
| FetchDeploymentCredentials
| SpawnSync (command : string) (env : gmap string string)
| RunPush (o : PushOptions)
| RunFunctionAndLog (deploymentUrl key functionName : string)
| Prompt (message : string).

(** A call either returns or ends the process with an exit code
    ([ctx.crash(code)] does not return). *)
Inductive Res (A : Type) : Type :=
| Done (a : A)
| Crashed (code : Z).
Arguments Done {A} a.
Arguments Crashed {A} code.

Record State := {
  env : gmap string string;   (* process.env *)
  fs : gmap string string;    (* ctx.fs: path to utf-8 content *)
  trace : list Event
}.

Definition M (A : Type) : Type := State -> Res A * State.

Global Instance M_ret : MRet M := fun A a st => (Done a, st).
Global Instance M_bind : MBind M := fun A B f m st =>
  match m st with
  | (Done a, st') => f a st'
  | (Crashed code, st') => (Crashed code, st')
  end.

Definition emit (e : Event) : M unit := fun st =>
  (Done tt, {| env := env st; fs := fs st; trace := trace st ++ [e] |}).

(** [await ctx.crash(code)] *)
Definition crash {A} (code : Z) : M A := fun st => (Crashed code, st).

(** A collaborator that leaves a mark in the trace and then returns or
    crashes. *)
Definition call {A} (e : Event) (r : Res A) : M A := fun st =>
  (r, {| env := env st; fs := fs st; trace := trace st ++ [e] |}).

(** A collaborator that only answers. *)
Definition ask {A} (r : Res A) : M A := fun st => (r, st).

Definition get_env : M (gmap string string) := fun st => (Done (env st), st).
Definition set_env (e : gmap string string) : M unit := fun st =>
  (Done tt, {| env := e; fs := fs st; trace := trace st |}).
Definition get_fs : M (gmap string string) := fun st => (Done (fs st), st).
Definition writeUtf8File (path content : string) : M unit := fun st =>
  (Done tt, {| env := env st; fs := <[path := content]> (fs st); trace := trace st |}).

Definition logError (msg : string) : M unit := emit (LogError msg).
Definition logFailure (msg : string) : M unit := emit (LogFailure msg).
Definition logFinishedStep (msg : string) : M unit := emit (LogFinishedStep msg).
Definition logMessage (msg : string) : M unit := emit (LogMessage msg).
Definition logOutput (msg : string) : M unit := emit (LogOutput msg).
Definition showSpinner (msg : string) : M unit := emit (ShowSpinner msg).

(** ** The collaborators imported by [deploy.ts] and [deployment.ts]

    Their code is outside these two files; the command is modelled over
    any behaviour of theirs. *)

Record ClaimData := { cd_adminKey : string; cd_instanceUrl : string }.

Record DeploymentNames := {
  configured : option string;   (* string | null *)
  selected : string
}.

Record Credentials := {
  cr_adminKey : string;
  cr_url : string;
  cr_deploymentNames : option DeploymentNames  (* [None]: undefined *)
}.

Record World := {
  ProjectSelection : Type;
  DeploymentSelection : Type;
  (* lib/api.ts *)
  storeAdminKeyEnvVar : option string -> gmap string string -> gmap string string;
  deploymentSelectionFromOptions : CmdOptions -> DeploymentSelection;
  fetchDeploymentCredentialsWithinCurrentProject :
    DeploymentSelection -> Res Credentials;
  projectSelection : option string -> string -> Res ProjectSelection;
  (* lib/utils.ts *)
  readAdminKeyFromEnvVar : gmap string string -> option string;
  getConfiguredDeployment : gmap string string -> Res (option string);
  bigBrainAPI : string -> string -> ProjectSelection -> string -> Res ClaimData;
  (* lib/envvars.ts *)
  isNonProdBuildEnvironment : gmap string string -> bool;
  gitBranchFromEnvironment : gmap string string -> option string;
  suggestedEnvVarName : Res string;
  changedEnvVarFile :
    option string -> string -> string -> string -> string -> option string;
  (* lib/usage.ts, lib/push.ts, lib/run.ts *)
  usageStateWarning : Res unit;
  runPush : PushOptions -> Res unit;
  runFunctionAndLog : string -> string -> string -> Res unit;
  (* child_process, inquirer, chalk *)
  spawnSync : string -> gmap string string -> option Z;
  prompt : string -> bool;
  chalk_bold : string -> string
}.

(** Modelled from the spec: the constant [CONVEX_DEPLOY_KEY_ENV_VAR_NAME] of
    lib/utils.ts is missing; the command's description and the comments of
    both files name the variable. *)
Definition CONVEX_DEPLOY_KEY_ENV_VAR_NAME : string := "CONVEX_DEPLOY_KEY".

(** Modelled from the spec: [storeAdminKeyEnvVar] of lib/api.ts is missing;
    an admin key given by flag is registered into the process environment
    so that later reads pick it up. *)
Definition storeAdminKeyEnvVar_spec (adminKeyOption : option string)
    (e : gmap string string) : gmap string string :=
  match adminKeyOption with
  | Some k => <[CONVEX_DEPLOY_KEY_ENV_VAR_NAME := k]> e
  | None => e
  end.

(** Modelled from the spec: [readAdminKeyFromEnvVar] of lib/utils.ts is
    missing; it reads the deploy-key environment variable. *)
Definition readAdminKeyFromEnvVar_spec (e : gmap string string) : option string :=
  e !! CONVEX_DEPLOY_KEY_ENV_VAR_NAME.

(** ** [src/cli/lib/deployment.ts], the stateful part *)

Inductive DeploymentType := Dev | Prod.

Definition DeploymentType_str (t : DeploymentType) : string :=
  match t with Dev => "dev" | Prod => "prod" end.

Record Deployment := {
  team : string;
  project : string;
  deploymentName : string
}.

Definition changesToEnvVarFile (w : World) (existingFile : option string)
    (deploymentType : DeploymentType) (d : Deployment) : option string :=
  let deploymentValue := DeploymentType_str deploymentType +:+ ":" +:+ deploymentName d in
  let commentOnPreviousLine := "# Deployment used by `npx convex dev`" in
  let commentAfterValue := "team: " +:+ team d +:+ ", project: " +:+ project d in
  changedEnvVarFile w existingFile CONVEX_DEPLOYMENT_VAR_NAME deploymentValue
    commentAfterValue commentOnPreviousLine.

Definition gitIgnoreEnvVarFile : M bool :=
  let gitIgnorePath := ".gitignore" in
  files ← get_fs;
  let gitIgnoreContents := default "" (files !! gitIgnorePath) in
  let changedGitIgnore := changesToGitIgnore (Some gitIgnoreContents) in
  match changedGitIgnore with
  | Some changed => writeUtf8File gitIgnorePath changed;; mret true
  | None => mret false
  end.

(** The result is the field [wroteToGitIgnore] of the returned object. *)
Definition writeDeploymentEnvVar (w : World) (deploymentType : DeploymentType)
    (deployment : Deployment) : M bool :=
  files ← get_fs;
  let existingFile := files !! ENV_VAR_FILE_PATH in
  let changedFile := changesToEnvVarFile w existingFile deploymentType deployment in
  e ← get_env;
  set_env (<[CONVEX_DEPLOYMENT_VAR_NAME :=
               DeploymentType_str deploymentType +:+ ":" +:+ deploymentName deployment]> e);;
  match changedFile with
  | Some changed =>
      writeUtf8File ENV_VAR_FILE_PATH changed;;
      gitIgnoreEnvVarFile
  | None => mret false
  end.

Definition deploymentNameFromAdminKeyOrCrash (adminKey : string) : M string :=
  match deploymentNameFromAdminKey adminKey with
  | None =>
      logFailure ("Please set " +:+ CONVEX_DEPLOY_KEY_ENV_VAR_NAME +:+
                  " to a new key which you can find on your Convex dashboard.");;
      crash 1
  | Some deploymentName => mret deploymentName
  end.

(** ** [src/cli/deploy.ts] *)

Definition PLACEHOLDER_URL : string := "https://<PREVIEW DEPLOYMENT>.convex.cloud".

Definition runCommand (w : World) (options : RunCommandOptions) : M unit :=
  match rc_cmd options with
  | None => mret tt
  | Some command =>
      urlVar ← match rc_cmdUrlEnvVarName options with
               | Some name => mret name
               | None => ask (suggestedEnvVarName w)
               end;
      showSpinner ("Running '" +:+ command +:+ "' with environment variable " +:+
                   dq +:+ urlVar +:+ dq +:+ " set..." +:+
                   (if truthy (rc_dryRun options) then " [dry run]" else ""));;
      (if negb (truthy (rc_dryRun options)) then
         e ← get_env;
         let e' := <[urlVar := rc_url options]> e in
         emit (SpawnSync command e');;
         match spawnSync w command e' with
         | Some 0%Z => mret tt
         | _ => logFailure ("'" +:+ command +:+ "' failed");; crash 1
         end
       else mret tt);;
      logFinishedStep ((if truthy (rc_dryRun options) then "Would have run" else "Ran") +:+
                       " " +:+ dq +:+ command +:+ dq +:+
                       " with environment variable " +:+ dq +:+ urlVar +:+ dq +:+ " set")
  end.

Definition askToConfirmPush (w : World) (configuredName prodName prodUrl : string)
    : M bool :=
  envVar ← ask (suggestedEnvVarName w);
  logMessage ("You're currently developing against your " +:+ chalk_bold w "dev" +:+
              " deployment" +:+ nl +:+ nl +:+
              "  " +:+ configuredName +:+ " (set in CONVEX_DEPLOYMENT)" +:+ nl +:+ nl +:+
              "Your " +:+ chalk_bold w "prod" +:+ " deployment " +:+
              chalk_bold w prodName +:+ " serves traffic at:" +:+ nl +:+ nl +:+
              "  " +:+ envVar +:+ "=" +:+ chalk_bold w prodUrl +:+ nl +:+ nl +:+
              "Make sure that your published client is configured with this URL (for instructions see https://docs.convex.dev/hosting)" +:+ nl);;
  let message := "Do you want to push your code to your prod deployment " +:+
                 prodName +:+ " now?" in
  emit (Prompt message);;
  mret (prompt w message).

Definition handlePreview (w : World) (configuredDeployKey : string)
    (options : CmdOptions) : M unit :=
  e ← get_env;
  let previewName := coalesce (optional (previewCreate options))
                              (gitBranchFromEnvironment w e) in
  previewName ← match previewName with
                | None =>
                    logError ("`npx convex deploy` to a preview deployment could not determine the preview name. Provide one using `--preview-create`");;
                    crash 1
                | Some name => mret name
                end;
  if truthy (dryRun options) then
    logFinishedStep ("Would have claimed preview deployment for " +:+
                     dq +:+ previewName +:+ dq);;
    runCommand w {| rc_cmdUrlEnvVarName := cmdUrlEnvVarName options;
                    rc_cmd := cmd options;
                    rc_dryRun := Some (truthy (dryRun options));
                    rc_url := PLACEHOLDER_URL |};;
    logFinishedStep ("Would have deployed Convex functions to preview deployment for " +:+
                     dq +:+ previewName +:+ dq);;
    match previewRun options with
    | Some functionName =>
        logMessage ("Would have run function " +:+ dq +:+ functionName +:+ dq)
    | None => mret tt
    end
  else
    e ← get_env;
    configuredDeployment ← ask (getConfiguredDeployment w e);
    selection ← ask (projectSelection w configuredDeployment configuredDeployKey);
    data ← call (BigBrainAPI "POST" "claim_preview_deployment" previewName)
              (bigBrainAPI w "POST" "claim_preview_deployment" selection previewName);
    let previewAdminKey := cd_adminKey data in
    let previewUrl := cd_instanceUrl data in
    runCommand w {| rc_cmdUrlEnvVarName := cmdUrlEnvVarName options;
                    rc_cmd := cmd options;
                    rc_dryRun := dryRun options;
                    rc_url := previewUrl |};;
    let pushOptions :=
      {| po_adminKey := previewAdminKey;
         po_verbose := truthy (verbose options);
         po_dryRun := false;
         po_typecheck := typecheck options;
         po_debug := truthy (debug options);
         po_debugBundlePath := debugBundlePath options;
         po_codegen := Toggle_eqb (codegen options) Enable;
         po_url := previewUrl |} in
    showSpinner ("Deploying to " +:+ previewUrl +:+ "...");;
    call (RunPush pushOptions) (runPush w pushOptions);;
    logFinishedStep ("Deployed Convex functions to " +:+ previewUrl);;
    match previewRun options with
    | Some functionName =>
        call (RunFunctionAndLog previewUrl previewAdminKey functionName)
             (runFunctionAndLog w previewUrl previewAdminKey functionName);;
        (* callbacks.onSuccess *)
        logFinishedStep ("Finished running function " +:+ dq +:+ functionName +:+ dq)
    | None => mret tt
    end;;
    if truthy (logDeploymentName options) then
      deploymentName ← deploymentNameFromAdminKeyOrCrash previewAdminKey;
      logOutput deploymentName
    else mret tt.

Definition handleProduction (w : World) (options : CmdOptions) : M unit :=
  let deploymentSelection := deploymentSelectionFromOptions w options in
  credentials ← call FetchDeploymentCredentials
                  (fetchDeploymentCredentialsWithinCurrentProject w deploymentSelection);
  let adminKey := cr_adminKey credentials in
  let url := cr_url credentials in
  match cr_deploymentNames credentials with
  | Some {| configured := Some configuredName; selected := selectedName |} =>
      shouldPushToProd ←
        (if String.eqb selectedName configuredName then mret true
         else match yes options with
              | Some b => mret b
              | None => askToConfirmPush w configuredName selectedName url
              end);
      if negb shouldPushToProd then crash 1 else mret tt
  | _ => mret tt
  end;;
  runCommand w {| rc_cmdUrlEnvVarName := cmdUrlEnvVarName options;
                  rc_cmd := cmd options;
                  rc_dryRun := dryRun options;
                  rc_url := url |};;
  let pushOptions :=
    {| po_adminKey := adminKey;
       po_verbose := truthy (verbose options);
       po_dryRun := truthy (dryRun options);
       po_typecheck := typecheck options;
       po_debug := truthy (debug options);
       po_debugBundlePath := debugBundlePath options;
       po_codegen := Toggle_eqb (codegen options) Enable;
       po_url := url |} in
  showSpinner ("Deploying to " +:+ url +:+ "..." +:+
               (if truthy (dryRun options) then " [dry run]" else ""));;
  call (RunPush pushOptions) (runPush w pushOptions);;
  logFinishedStep ((if truthy (dryRun options) then "Would have deployed" else "Deployed") +:+
                   " Convex functions to " +:+ url);;
  if truthy (logDeploymentName options) then
    deploymentName ← deploymentNameFromAdminKeyOrCrash adminKey;
    logOutput deploymentName
  else mret tt.

(** [configuredDeployKey !== null &&
     deploymentTypeFromAdminKey(configuredDeployKey) === type] (line 144) *)
Definition keyHasType (configuredDeployKey : option string) (type : string) : bool :=
  match configuredDeployKey with
  | Some key => String.eqb (deploymentTypeFromAdminKey key) type
  | None => false
  end.

(** The action of the [deploy] command (lines 117-185). *)
Definition deploy (w : World) (cmdOptions : CmdOptions) : M unit :=
  e ← get_env;
  set_env (storeAdminKeyEnvVar w (adminKey cmdOptions) e);;
  e ← get_env;
  let configuredDeployKey := coalesce (optional (readAdminKeyFromEnvVar w e)) None in
  (if Toggle_eqb (checkBuildEnvironment cmdOptions) Enable &&
      isNonProdBuildEnvironment w e &&
      keyHasType configuredDeployKey "prod"
   then
     logError ("Detected a non-production build environment and " +:+ dq +:+
               CONVEX_DEPLOY_KEY_ENV_VAR_NAME +:+ dq +:+
               " for a production Convex deployment." +:+ nl +:+ nl +:+
               "          This is probably unintentional." +:+ nl +:+
               "          ");;
     crash 1
   else mret tt);;
  configuredDeployment ← ask (getConfiguredDeployment w e);
  (if is_null (nullable configuredDeployment) &&
      is_null (optional (adminKey cmdOptions))
   then
     logFailure ("Please set " +:+ CONVEX_DEPLOY_KEY_ENV_VAR_NAME +:+
                 " to a new key which you can find on the Convex dashboard for your production deployment.");;
     crash 1
   else mret tt);;
  call UsageStateWarning (usageStateWarning w);;
  match configuredDeployKey with
  | Some key =>
      if String.eqb (deploymentTypeFromAdminKey key) "preview" then
        (if negb (is_undefined (optional (previewName cmdOptions))) then
           logError "The `--preview-name` flag has been deprecated in favor of `--preview-create`. Please re-run the command using `--preview-create` instead.";;
           crash 1
         else mret tt);;
        handlePreview w key cmdOptions
      else handleProduction w cmdOptions
  | None => handleProduction w cmdOptions
  end.

(** The values the option declarations give when no flag is passed
    (lines 46-115: [.default("try")], [.default("enable")] twice). *)
Definition defaults : CmdOptions :=
  {| verbose := None; dryRun := None; yes := None;
     typecheck := TcTry; codegen := Enable;
     cmd := None; cmdUrlEnvVarName := None;
     previewRun := None; previewCreate := None; previewName := None;
     checkBuildEnvironment := Enable;
     debugBundlePath := None; debug := None;
     adminKey := None; url := None; logDeploymentName := None |}.

(** ** Reading traces *)

Definition is_narration (e : Event) : bool :=
  match e with
  | LogError _ | LogFailure _ | LogFinishedStep _ | LogMessage _
  | LogOutput _ | ShowSpinner _ => true
  | _ => false
  end.

(** Awaited calls that go, or may go, to the network: the usage warning,
    the claim API, the credentials fetch, the push and the function
    run. *)
Definition is_network_call (e : Event) : bool :=
  match e with
  | UsageStateWarning | BigBrainAPI _ _ _ | FetchDeploymentCredentials
  | RunPush _ | RunFunctionAndLog _ _ _ => true
  | _ => false
  end.

Definition is_spawn (e : Event) : bool :=
  match e with SpawnSync _ _ => true | _ => false end.

Definition is_prompt (e : Event) : bool :=
  match e with Prompt _ => true | _ => false end.

Definition is_push (e : Event) : bool :=
  match e with RunPush _ => true | _ => false end.

Definition narration (t : list Event) : list Event := filter (fun e => is_narration e = true) t.

(** A computation adds to the trace only events satisfying [P], and
    leaves the earlier trace in place. *)
Definition emits (P : Event -> bool) {A} (m : M A) : Prop :=
  forall st, exists new,
    trace (m st).2 = trace st ++ new /\ forallb P new = true.

(** ** The production flow in two halves

    [handleProduction] fetches the credentials, then runs the
    confirmation (lines 321-336), then the command and the push
    (lines 338-367); see [handleProduction_parts]. *)

Definition confirmPush (w : World) (options : CmdOptions)
    (credentials : Credentials) : M unit :=
  match cr_deploymentNames credentials with
  | Some {| configured := Some configuredName; selected := selectedName |} =>
      shouldPushToProd ←
        (if String.eqb selectedName configuredName then mret true
         else match yes options with
              | Some b => mret b
              | None => askToConfirmPush w configuredName selectedName
                          (cr_url credentials)
              end);
      if negb shouldPushToProd then crash 1 else mret tt
  | _ => mret tt
  end.

Definition prodRunCommandOptions (options : CmdOptions) (credentials : Credentials)
    : RunCommandOptions :=
  {| rc_cmdUrlEnvVarName := cmdUrlEnvVarName options;
     rc_cmd := cmd options;
     rc_dryRun := dryRun options;
     rc_url := cr_url credentials |}.

Definition prodPushOptions (options : CmdOptions) (credentials : Credentials)
    : PushOptions :=
  {| po_adminKey := cr_adminKey credentials;
     po_verbose := truthy (verbose options);
     po_dryRun := truthy (dryRun options);
     po_typecheck := typecheck options;
     po_debug := truthy (debug options);
     po_debugBundlePath := debugBundlePath options;
     po_codegen := Toggle_eqb (codegen options) Enable;
     po_url := cr_url credentials |}.

Definition pushToProd (w : World) (options : CmdOptions)
    (credentials : Credentials) : M unit :=
  runCommand w (prodRunCommandOptions options credentials);;
  showSpinner ("Deploying to " +:+ cr_url credentials +:+ "..." +:+
               (if truthy (dryRun options) then " [dry run]" else ""));;
  call (RunPush (prodPushOptions options credentials))
       (runPush w (prodPushOptions options credentials));;
  logFinishedStep ((if truthy (dryRun options) then "Would have deployed" else "Deployed") +:+
                   " Convex functions to " +:+ cr_url credentials);;
  if truthy (logDeploymentName options) then
    deploymentName ← deploymentNameFromAdminKeyOrCrash (cr_adminKey credentials);
    logOutput deploymentName
  else mret tt.

(** The question [askToConfirmPush] asks. *)
Definition confirmQuestion (prodName : string) : string :=
  "Do you want to push your code to your prod deployment " +:+ prodName +:+ " now?".

(** ** What a dry run of the preview flow tells *)

Definition dryRunNarration (previewName urlVar : string) (options : CmdOptions)
    : list Event :=
  [LogFinishedStep ("Would have claimed preview deployment for " +:+
                    dq +:+ previewName +:+ dq)] ++
  match cmd options with
  | Some command =>
      [ShowSpinner ("Running '" +:+ command +:+ "' with environment variable " +:+
                    dq +:+ urlVar +:+ dq +:+ " set... [dry run]");
       LogFinishedStep ("Would have run " +:+ dq +:+ command +:+ dq +:+
                        " with environment variable " +:+ dq +:+ urlVar +:+ dq +:+ " set")]
  | None => []
  end ++
  [LogFinishedStep ("Would have deployed Convex functions to preview deployment for " +:+
                    dq +:+ previewName +:+ dq)] ++
  match previewRun options with
  | Some functionName =>
      [LogMessage ("Would have run function " +:+ dq +:+ functionName +:+ dq)]
  | None => []
  end.

(** The name [runCommand] injects the URL under: the flag, else the
    suggested one. *)
Definition urlVarFor (w : World) (options : CmdOptions) : Res string :=
  match cmdUrlEnvVarName options with
  | Some name => Done name
  | None => suggestedEnvVarName w
  end.

(** ** Sample collaborators, for concrete runs *)

Definition world_with (credentials : Res Credentials) (answer : bool) : World :=
  {| ProjectSelection := unit;
     DeploymentSelection := unit;
     storeAdminKeyEnvVar := storeAdminKeyEnvVar_spec;
     deploymentSelectionFromOptions := fun _ => tt;
     fetchDeploymentCredentialsWithinCurrentProject := fun _ => credentials;
     projectSelection := fun _ _ => Done tt;
     readAdminKeyFromEnvVar := readAdminKeyFromEnvVar_spec;
     getConfiguredDeployment := fun e => Done (e !! CONVEX_DEPLOYMENT_VAR_NAME);
     bigBrainAPI := fun _ _ _ _ =>
       Done {| cd_adminKey := "preview:team:proj|secret";
               cd_instanceUrl := PLACEHOLDER_URL |};
     isNonProdBuildEnvironment := fun e =>
       bool_decide (e !! "VERCEL_ENV" = Some "preview");
     gitBranchFromEnvironment := fun e => e !! "VERCEL_GIT_COMMIT_REF";
     suggestedEnvVarName := Done "CONVEX_URL";
     changedEnvVarFile := fun _ _ _ _ _ => None;
     usageStateWarning := Done tt;
     runPush := fun _ => Done tt;
     runFunctionAndLog := fun _ _ _ => Done tt;
     spawnSync := fun _ _ => Some 0%Z;
     prompt := fun _ => answer;
     chalk_bold := fun s => s |}.

Definition prod_credentials (configuredName : option string) : Credentials :=
  {| cr_adminKey := "prod:happy-otter-123|secret";
     cr_url := "https://happy-otter-123.convex.cloud";
     cr_deploymentNames :=
       Some {| configured := configuredName; selected := "happy-otter-123" |} |}.

Definition sample_world : World :=
  world_with (Done (prod_credentials (Some "tall-forest-1234"))) false.

Definition state_with (e : gmap string string) : State :=
  {| env := e; fs := ∅; trace := [] |}.

Definition preview_options (dry : option bool) : CmdOptions :=
  {| verbose := None; dryRun := dry; yes := None;
     typecheck := TcTry; codegen := Enable;
     cmd := None; cmdUrlEnvVarName := None;
     previewRun := None; previewCreate := Some "feature"; previewName := None;
     checkBuildEnvironment := Enable;
     debugBundlePath := None; debug := None;
     adminKey := None; url := None; logDeploymentName := None |}.


Definition yes_options (y : option bool) : CmdOptions :=
  {| verbose := None; dryRun := None; yes := y;
     typecheck := TcTry; codegen := Enable;
     cmd := None; cmdUrlEnvVarName := None;
     previewRun := None; previewCreate := None; previewName := None;
     checkBuildEnvironment := Enable;
     debugBundlePath := None; debug := None;
     adminKey := None; url := None; logDeploymentName := None |}.

(** ** The rest of [src/cli/lib/deployment.ts]

    [readDeploymentEnvVar] and [eraseDeploymentEnvVar] go through the
    dotenv package and through [getEnvVarRegex] of lib/envvars.ts; both
    are taken as they come. *)

Record Dotenv := {
  (* [dotenv.config({ path })], [dotenv.config()]: the files seen, the
     environment before, the environment after *)
  dotenv_config : option string -> gmap string string -> gmap string string ->
                  gmap string string;
  (* [dotenv.parse(content)] *)
  dotenv_parse : string -> gmap string string;
  (* [content.replace(getEnvVarRegex(name), "")] *)
  eraseEnvVar : string -> string -> string
}.

(** The environment after the two [dotenv.config] calls of
    [readDeploymentEnvVar]. *)
Definition loadedEnv (d : Dotenv) (files e : gmap string string) : gmap string string :=
  dotenv_config d None files (dotenv_config d (Some ENV_VAR_FILE_PATH) files e).

(** A string as a condition: the empty string is falsy. *)
Definition truthy_string (s : string) : bool :=
  match s with EmptyString => false | String _ _ => true end.

Definition readDeploymentEnvVar (d : Dotenv) : M (option string) :=
  files ← get_fs;
  e ← get_env;
  set_env (dotenv_config d (Some ENV_VAR_FILE_PATH) files e);;
  e ← get_env;
  set_env (dotenv_config d None files e);;
  e ← get_env;
  let rawAdminKey := coalesce (optional (e !! CONVEX_DEPLOY_KEY_ENV_VAR_NAME)) None in
  let adminKeyDeploymentName :=
    match rawAdminKey with
    | Some key => if truthy_string key then deploymentNameFromAdminKey key else None
    | None => None
    end in
  match adminKeyDeploymentName with
  | Some name => mret (Some name)
  | None =>
      let raw := coalesce (optional (e !! CONVEX_DEPLOYMENT_VAR_NAME)) None in
      match raw with
      | None => mret None
      | Some raw =>
          if String.eqb raw "" then mret None
          else mret (Some (stripDeploymentTypePrefix raw))
      end
  end.

Definition eraseDeploymentEnvVar (d : Dotenv) : M bool :=
  files ← get_fs;
  match files !! ENV_VAR_FILE_PATH with
  | None => mret false
  | Some existingFile =>
      let config := dotenv_parse d existingFile in
      match config !! CONVEX_DEPLOYMENT_VAR_NAME with
      | None => mret false
      | Some existing =>
          let changedFile := eraseEnvVar d existingFile CONVEX_DEPLOYMENT_VAR_NAME in
          writeUtf8File ENV_VAR_FILE_PATH changedFile;;
          mret true
      end
  end.

(** ** More ways to read a run *)

(** The line test of [changesToGitIgnore] (lines 567-572). *)
Definition ignoresEnvVarFile (line : string) : bool :=
  String.eqb line ".env.local" ||
  String.eqb line ".env.*" ||
  String.eqb line ".env*" ||
  String.eqb line "*.local" ||
  String.eqb line ".env*.local".

(** A computation leaves the process environment and the files alone. *)
Definition keeps {A} (m : M A) : Prop :=
  forall st, env (m st).2 = env st /\ fs (m st).2 = fs st.

(** From a given state, a computation adds only events satisfying [P]. *)
Definition emits_at (P : Event -> bool) {A} (m : M A) (st : State) : Prop :=
  exists new, trace (m st).2 = trace st ++ new /\ forallb P new = true.

Definition is_claim (e : Event) : bool :=
  match e with BigBrainAPI _ _ _ => true | _ => false end.

Definition is_function_run (e : Event) : bool :=
  match e with RunFunctionAndLog _ _ _ => true | _ => false end.

(** Every push of the event, if it is one, is a real one. *)
Definition pushes_for_real (e : Event) : bool :=
  match e with RunPush o => negb (po_dryRun o) | _ => true end.

(** What the preview flow hands to [runCommand] and to the push once the
    claim API has answered (lines 252-263). *)
Definition previewRunCommandOptions (options : CmdOptions) (data : ClaimData)
    : RunCommandOptions :=
  {| rc_cmdUrlEnvVarName := cmdUrlEnvVarName options;
     rc_cmd := cmd options;
     rc_dryRun := dryRun options;
     rc_url := cd_instanceUrl data |}.

Definition previewPushOptions (options : CmdOptions) (data : ClaimData) : PushOptions :=
  {| po_adminKey := cd_adminKey data;
     po_verbose := truthy (verbose options);
     po_dryRun := false;
     po_typecheck := typecheck options;
     po_debug := truthy (debug options);
     po_debugBundlePath := debugBundlePath options;
     po_codegen := Toggle_eqb (codegen options) Enable;
     po_url := cd_instanceUrl data |}.

(** The events of the preview flow from the push to the end of the
    function run, when both succeed. *)
Definition previewPushEvents (options : CmdOptions) (data : ClaimData) : list Event :=
  [ShowSpinner ("Deploying to " +:+ cd_instanceUrl data +:+ "...");
   RunPush (previewPushOptions options data);
   LogFinishedStep ("Deployed Convex functions to " +:+ cd_instanceUrl data)] ++
  match previewRun options with
  | Some functionName =>
      [RunFunctionAndLog (cd_instanceUrl data) (cd_adminKey data) functionName;
       LogFinishedStep ("Finished running function " +:+ dq +:+ functionName +:+ dq)]
  | None => []
  end.



(** The same collaborators with another build-environment detection. *)
Definition with_build_environment (w : World)
    (detect : gmap string string -> bool) : World :=
  {| ProjectSelection := ProjectSelection w;
     DeploymentSelection := DeploymentSelection w;
     storeAdminKeyEnvVar := storeAdminKeyEnvVar w;
     deploymentSelectionFromOptions := deploymentSelectionFromOptions w;
     fetchDeploymentCredentialsWithinCurrentProject :=
       fetchDeploymentCredentialsWithinCurrentProject w;
     projectSelection := projectSelection w;
     readAdminKeyFromEnvVar := readAdminKeyFromEnvVar w;
     getConfiguredDeployment := getConfiguredDeployment w;
     bigBrainAPI := bigBrainAPI w;
     isNonProdBuildEnvironment := detect;
     gitBranchFromEnvironment := gitBranchFromEnvironment w;
     suggestedEnvVarName := suggestedEnvVarName w;
     changedEnvVarFile := changedEnvVarFile w;
     usageStateWarning := usageStateWarning w;
     runPush := runPush w;
     runFunctionAndLog := runFunctionAndLog w;
     spawnSync := spawnSync w;
     prompt := prompt w;
     chalk_bold := chalk_bold w |}.

(** A dotenv that finds no file, and one that reads [KEY=value] lines
    only as far as the sample runs need. *)
Definition no_dotenv : Dotenv :=
  {| dotenv_config := fun _ _ e => e;
     dotenv_parse := fun _ => ∅;
     eraseEnvVar := fun content _ => content |}.

(** A dotenv that reads a file: a file [.env] that is there gives the
    deploy key its whole content, unless the variable is set already. *)
Definition file_dotenv : Dotenv :=
  {| dotenv_config := fun path files e =>
       match path, files !! ".env" with
       | None, Some content =>
           match e !! "CONVEX_DEPLOY_KEY" with
           | Some _ => e
           | None => <["CONVEX_DEPLOY_KEY" := content]> e
           end
       | _, _ => e
       end;
     dotenv_parse := fun content =>
       if String.eqb content "CONVEX_DEPLOYMENT=dev:d1234"
       then {[ "CONVEX_DEPLOYMENT" := "dev:d1234" ]} else ∅;
     eraseEnvVar := fun _ _ => "" |}.

Definition sample_dotenv : Dotenv :=
  {| dotenv_config := fun _ _ e => e;
     dotenv_parse := fun content =>
       if String.eqb content "CONVEX_DEPLOYMENT=dev:d1234"
       then {[ "CONVEX_DEPLOYMENT" := "dev:d1234" ]} else ∅;
     eraseEnvVar := fun _ _ => "" |}.

(** Collaborators whose [changedEnvVarFile] always has a change: the
    line [NAME=value]. *)
Definition writing_world : World :=
  {| ProjectSelection := unit;
     DeploymentSelection := unit;
     storeAdminKeyEnvVar := storeAdminKeyEnvVar_spec;
     deploymentSelectionFromOptions := fun _ => tt;
     fetchDeploymentCredentialsWithinCurrentProject := fun _ => Crashed 1;
     projectSelection := fun _ _ => Done tt;
     readAdminKeyFromEnvVar := readAdminKeyFromEnvVar_spec;
     getConfiguredDeployment := fun _ => Done None;
     bigBrainAPI := fun _ _ _ _ => Crashed 1;
     isNonProdBuildEnvironment := fun _ => false;
     gitBranchFromEnvironment := fun _ => None;
     suggestedEnvVarName := Done "CONVEX_URL";
     changedEnvVarFile := fun _ name value _ _ => Some (name +:+ "=" +:+ value);
     usageStateWarning := Done tt;
     runPush := fun _ => Done tt;
     runFunctionAndLog := fun _ _ _ => Done tt;
     spawnSync := fun _ _ => Some 1%Z;
     prompt := fun _ => false;
     chalk_bold := fun s => s |}.

Definition command_options (command : option string) (dry : option bool) : CmdOptions :=
  {| verbose := None; dryRun := dry; yes := Some true;
     typecheck := TcTry; codegen := Enable;
     cmd := command; cmdUrlEnvVarName := Some "VITE_CONVEX_URL";
     previewRun := Some "init"; previewCreate := Some "feature"; previewName := None;
     checkBuildEnvironment := Enable;
     debugBundlePath := None; debug := None;
     adminKey := None; url := None; logDeploymentName := None |}.

Definition log_name_options : CmdOptions :=
  {| verbose := None; dryRun := None; yes := None;
     typecheck := TcTry; codegen := Enable;
     cmd := None; cmdUrlEnvVarName := None;
     previewRun := None; previewCreate := Some "feature"; previewName := None;
     checkBuildEnvironment := Enable;
     debugBundlePath := None; debug := None;
     adminKey := None; url := None; logDeploymentName := Some true |}.

(** ** Facts about [split] and [at_] *)

Section SplitFacts.

Variable sep : ascii.

Lemma split_cons (a : ascii) (s : string) :
  Ascii.eqb a sep = false ->
  exists seg rest, split sep s = seg :: rest /\
                   split sep (String a s) = String a seg :: rest.
Proof.
  intros Ha. simpl. rewrite Ha.
  destruct (split sep s) as [|seg rest] eqn:E.
  - exfalso. destruct s as [|b s]; simpl in E; [discriminate|].
    destruct (Ascii.eqb b sep); [discriminate|].
    destruct (split sep s); discriminate.
  - exists seg, rest. split; reflexivity.
Qed.

Lemma split_nonempty (s : string) : split sep s <> [].
Proof.
  destruct s as [|a s]; simpl; [discriminate|].
  destruct (Ascii.eqb a sep); [discriminate|].
  destruct (split sep s); discriminate.
Qed.

Lemma split_length_one (s : string) :
  (length (split sep s) =? 1)%nat = negb (contains sep s).
Proof.
  induction s as [|a s IH]; simpl; [reflexivity|].
  destruct (Ascii.eqb a sep) eqn:Ha; simpl.
  - pose proof (split_nonempty s) as Hne.
    destruct (split sep s); [congruence|reflexivity].
  - pose proof (split_nonempty s) as Hne. rewrite <- IH.
    destruct (split sep s); [congruence|reflexivity].
Qed.

Lemma split_head (s : string) :
  head (split sep s) = Some (before_first sep s).
Proof.
  induction s as [|a s IH]; simpl; [reflexivity|].
  destruct (Ascii.eqb a sep) eqn:Ha; simpl; [reflexivity|].
  destruct (split sep s); simpl in *; congruence.
Qed.

Lemma after_last_absent (s : string) :
  contains sep s = false -> after_last sep s = s.
Proof.
  destruct s as [|a s]; simpl; [reflexivity|].
  intros [Ha Hs]%orb_false_elim. rewrite Hs, Ha. reflexivity.
Qed.

Lemma split_last (s : string) :
  last (split sep s) = Some (after_last sep s).
Proof.
  induction s as [|a s IH]; simpl; [reflexivity|].
  pose proof (split_length_one s) as Hlen.
  pose proof (split_nonempty s) as Hne.
  destruct (Ascii.eqb a sep) eqn:Ha.
  - destruct (split sep s) as [|seg rest] eqn:E; [congruence|].
    destruct rest as [|seg' rest].
    + simpl in *. destruct (contains sep s) eqn:Hc; [discriminate|].
      rewrite IH, after_last_absent by exact Hc. reflexivity.
    + simpl in *. destruct (contains sep s); [|discriminate]. exact IH.
  - destruct (split sep s) as [|seg rest] eqn:E; [congruence|].
    destruct rest as [|seg' rest].
    + simpl in *. destruct (contains sep s) eqn:Hc; [discriminate|].
      rewrite after_last_absent in IH by exact Hc. congruence.
    + simpl in *. destruct (contains sep s); [|discriminate]. exact IH.
Qed.

(** Splitting distributes over a separator between two strings. *)
Lemma split_app (s t : string) :
  split sep (s +:+ String sep t) = split sep s ++ split sep t.
Proof.
  induction s as [|a s IH]; simpl.
  - rewrite Ascii.eqb_refl. reflexivity.
  - rewrite IH. destruct (Ascii.eqb a sep); [reflexivity|].
    pose proof (split_nonempty s) as Hne.
    destruct (split sep s); [congruence|reflexivity].
Qed.

End SplitFacts.

Lemma at_first {A} (arr : list A) : at_ arr 0 = head arr.
Proof. unfold at_. simpl. destruct arr; reflexivity. Qed.

Lemma at_last {A} (arr : list A) : at_ arr (-1) = last arr.
Proof.
  unfold at_. simpl.
  destruct arr as [|x arr]; [reflexivity|].
  replace (-1 + Z.of_nat (length (x :: arr)))%Z with (Z.of_nat (length arr))
    by (simpl length; lia).
  destruct (Z.ltb_spec (Z.of_nat (length arr)) 0) as [Hlt|_]; [lia|].
  rewrite Nat2Z.id, last_lookup. reflexivity.
Qed.

Lemma stripDeploymentTypePrefix_defined (deployment : string) :
  stripDeploymentTypePrefix_raw deployment = Some (after_last ":" deployment).
Proof. unfold stripDeploymentTypePrefix_raw. rewrite at_last. apply split_last. Qed.

Lemma stripDeploymentTypePrefix_after_last (deployment : string) :
  stripDeploymentTypePrefix deployment = after_last ":" deployment.
Proof.
  unfold stripDeploymentTypePrefix.
  rewrite stripDeploymentTypePrefix_defined. reflexivity.
Qed.

Lemma deploymentTypeFromAdminKey_cases (adminKey : string) :
  deploymentTypeFromAdminKey adminKey =
    if contains ":" adminKey then before_first ":" adminKey else "prod".
Proof.
  unfold deploymentTypeFromAdminKey.
  rewrite split_length_one, at_first, split_head.
  destruct (contains ":" adminKey); reflexivity.
Qed.

Lemma deploymentNameFromAdminKey_cases (adminKey : string) :
  deploymentNameFromAdminKey adminKey =
    if negb (contains "|" adminKey) then None
    else if String.eqb (deploymentTypeFromAdminKey adminKey) "prod"
         then Some (after_last ":" (before_first "|" adminKey))
         else None.
Proof.
  unfold deploymentNameFromAdminKey.
  rewrite split_length_one.
  destruct (contains "|" adminKey); simpl; [|reflexivity].
  destruct (String.eqb (deploymentTypeFromAdminKey adminKey) "prod"); simpl;
    [|reflexivity].
  rewrite <- head_lookup, split_head. simpl.
  rewrite stripDeploymentTypePrefix_after_last. reflexivity.
Qed.

(** ** Admin keys *)

Example stripDeploymentTypePrefix_dev :
  stripDeploymentTypePrefix "dev:tall-forest-1234" = "tall-forest-1234".
Proof. reflexivity. Qed.

Example stripDeploymentTypePrefix_no_colon :
  stripDeploymentTypePrefix "no-colon" = "no-colon".
Proof. reflexivity. Qed.

Example deploymentNameFromAdminKey_typed :
  deploymentNameFromAdminKey "prod:myapp-1234|re:st" = Some "myapp-1234".
Proof. reflexivity. Qed.

Example deploymentTypeFromAdminKey_preview :
  deploymentTypeFromAdminKey "preview:team:proj|key" = "preview".
Proof. reflexivity. Qed.

(** C5: [deploymentNameFromAdminKey] returns [null] for a key without [|]
    and for a key whose type is not ["prod"]; for the other keys it
    returns the last colon-delimited segment of the part before the first
    [|]; on ["myapp-1234|rest"] it returns ["myapp-1234"]. *)
Theorem deploymentNameFromAdminKey_spec (adminKey : string) :
  (contains "|" adminKey = false -> deploymentNameFromAdminKey adminKey = None) /\
  (deploymentTypeFromAdminKey adminKey <> "prod" ->
   deploymentNameFromAdminKey adminKey = None) /\
  (contains "|" adminKey = true ->
   deploymentTypeFromAdminKey adminKey = "prod" ->
   deploymentNameFromAdminKey adminKey =
     Some (after_last ":" (before_first "|" adminKey))) /\
  deploymentNameFromAdminKey "myapp-1234|rest" = Some "myapp-1234".
Proof.
  rewrite deploymentNameFromAdminKey_cases.
  repeat split.
  - intros ->. reflexivity.
  - intros Hty. destruct (contains "|" adminKey); simpl; [|reflexivity].
    destruct (String.eqb_spec (deploymentTypeFromAdminKey adminKey) "prod");
      [contradiction|reflexivity].
  - intros -> ->. reflexivity.
Qed.

Lemma deploymentNameFromAdminKey_spec_witness :
  (contains "|" "just-a-key" = false /\
   deploymentNameFromAdminKey "just-a-key" = None) /\
  (deploymentTypeFromAdminKey "preview:team:proj|key" <> "prod" /\
   deploymentNameFromAdminKey "preview:team:proj|key" = None) /\
  (contains "|" "prod:myapp-1234|key" = true /\
   deploymentTypeFromAdminKey "prod:myapp-1234|key" = "prod" /\
   deploymentNameFromAdminKey "prod:myapp-1234|key" = Some "myapp-1234").
Proof.
  split; [|split].
  - split; [reflexivity|].
    apply (proj1 (deploymentNameFromAdminKey_spec "just-a-key")). reflexivity.
  - split; [intros H; cbv in H; discriminate H|].
    apply (proj1 (proj2 (deploymentNameFromAdminKey_spec "preview:team:proj|key"))).
    intros H; cbv in H; discriminate H.
  - split; [reflexivity|]. split; [reflexivity|].
    apply (proj1 (proj2 (proj2 (deploymentNameFromAdminKey_spec "prod:myapp-1234|key"))));
      reflexivity.
Defined.

(** C6: [deploymentTypeFromAdminKey] returns ["prod"] for a key without
    [:] and the part before the first [:] otherwise;
    [stripDeploymentTypePrefix] returns the part after the last [:], which
    is the whole string when it has no [:]. *)
Theorem deploymentType_and_strip_spec (adminKey value : string) :
  (contains ":" adminKey = false -> deploymentTypeFromAdminKey adminKey = "prod") /\
  (contains ":" adminKey = true ->
   deploymentTypeFromAdminKey adminKey = before_first ":" adminKey) /\
  stripDeploymentTypePrefix value = after_last ":" value /\
  (contains ":" value = false -> stripDeploymentTypePrefix value = value).
Proof.
  rewrite deploymentTypeFromAdminKey_cases, stripDeploymentTypePrefix_after_last.
  repeat split.
  - intros ->. reflexivity.
  - intros ->. reflexivity.
  - apply after_last_absent.
Qed.

Lemma deploymentType_and_strip_spec_witness :
  (contains ":" "myapp-1234|rest" = false /\
   deploymentTypeFromAdminKey "myapp-1234|rest" = "prod") /\
  (contains ":" "preview:team:proj|key" = true /\
   deploymentTypeFromAdminKey "preview:team:proj|key" = "preview") /\
  stripDeploymentTypePrefix "dev:tall-forest-1234" = "tall-forest-1234" /\
  (contains ":" "no-colon" = false /\
   stripDeploymentTypePrefix "no-colon" = "no-colon").
Proof.
  split; [|split; [|split]].
  - split; [reflexivity|].
    apply (proj1 (deploymentType_and_strip_spec "myapp-1234|rest" "")). reflexivity.
  - split; [reflexivity|].
    apply (proj1 (proj2 (deploymentType_and_strip_spec "preview:team:proj|key" ""))).
    reflexivity.
  - apply (proj1 (proj2 (proj2 (deploymentType_and_strip_spec "" "dev:tall-forest-1234")))).
  - split; [reflexivity|].
    apply (proj2 (proj2 (proj2 (deploymentType_and_strip_spec "" "no-colon")))).
    reflexivity.
Defined.

(** ** The [.gitignore] edit *)

(** C2, as the code has it: without a [.gitignore] the new content is
    [.env.local] and a line feed; a file holding [*.local] needs no change;
    to an existing content the code appends a line feed, the path and a
    line feed, so a file holding [node_modules] and a line feed gets an
    empty line before the path, and one without the final line feed gets
    the path on the next line. *)
Theorem changesToGitIgnore_examples :
  changesToGitIgnore None = Some (".env.local" +:+ nl) /\
  changesToGitIgnore (Some ("*.local" +:+ nl)) = None /\
  changesToGitIgnore (Some ("node_modules" +:+ nl)) =
    Some ("node_modules" +:+ nl +:+ nl +:+ ".env.local" +:+ nl) /\
  changesToGitIgnore (Some "node_modules") =
    Some ("node_modules" +:+ nl +:+ ".env.local" +:+ nl).
Proof. split; [reflexivity | split; [reflexivity | split; reflexivity]]. Qed.

(** C2, as stated, fails on its third example: the result for a file
    holding [node_modules] and a line feed is not that content followed by
    the path alone. *)
Lemma changesToGitIgnore_node_modules_blank_line :
  changesToGitIgnore (Some ("node_modules" +:+ nl)) <>
    Some ("node_modules" +:+ nl +:+ ".env.local" +:+ nl).
Proof. intros H. cbv in H. discriminate H. Qed.

Lemma changesToGitIgnore_appended (existingFile : string) :
  split "010" (existingFile +:+ nl +:+ ENV_VAR_FILE_PATH +:+ nl) =
    split "010" existingFile ++ [".env.local"; ""].
Proof.
  change (existingFile +:+ nl +:+ ENV_VAR_FILE_PATH +:+ nl)
    with (existingFile +:+ String "010" (ENV_VAR_FILE_PATH +:+ nl)).
  rewrite split_app. reflexivity.
Qed.

(** C9: whenever [changesToGitIgnore] returns a new content, that content
    has a line equal to [.env.local], and [changesToGitIgnore] applied to
    it returns [null]. *)
Theorem changesToGitIgnore_idempotent (existingFile : option string) (changed : string) :
  changesToGitIgnore existingFile = Some changed ->
  In ".env.local" (split "010" changed) /\
  changesToGitIgnore (Some changed) = None.
Proof.
  destruct existingFile as [existing|]; simpl.
  - destruct (negb _); [|discriminate].
    intros [= <-]. rewrite changesToGitIgnore_appended. split.
    + apply in_or_app. right. left. reflexivity.
    + unfold some. rewrite existsb_app. simpl. rewrite orb_true_r. reflexivity.
  - intros [= <-]. split; [left; reflexivity|reflexivity].
Qed.

Lemma changesToGitIgnore_idempotent_witness :
  changesToGitIgnore (Some "node_modules") =
    Some ("node_modules" +:+ nl +:+ ".env.local" +:+ nl) /\
  In ".env.local" (split "010" ("node_modules" +:+ nl +:+ ".env.local" +:+ nl)) /\
  changesToGitIgnore (Some ("node_modules" +:+ nl +:+ ".env.local" +:+ nl)) = None.
Proof.
  split; [reflexivity|].
  apply (changesToGitIgnore_idempotent (Some "node_modules")).
  reflexivity.
Defined.

(** ** The [CONVEX_DEPLOYMENT] write *)

Lemma gitIgnoreEnvVarFile_env (st : State) :
  env (gitIgnoreEnvVarFile st).2 = env st.
Proof.
  unfold gitIgnoreEnvVarFile, mbind, M_bind, get_fs.
  destruct (changesToGitIgnore (Some (default "" (fs st !! ".gitignore"))));
    reflexivity.
Qed.

(** C10: every call of [writeDeploymentEnvVar] sets the variable
    [CONVEX_DEPLOYMENT] of the process environment to the deployment type,
    a colon and the deployment name; when no change of [.env.local] is
    computed it returns [wroteToGitIgnore: false] and writes no file. *)
Theorem writeDeploymentEnvVar_sets_process_env
    (w : World) (deploymentType : DeploymentType) (deployment : Deployment)
    (st : State) :
  env (writeDeploymentEnvVar w deploymentType deployment st).2
    !! "CONVEX_DEPLOYMENT" =
    Some (DeploymentType_str deploymentType +:+ ":" +:+ deploymentName deployment) /\
  (changesToEnvVarFile w (fs st !! ".env.local") deploymentType deployment = None ->
   (writeDeploymentEnvVar w deploymentType deployment st).1 = Done false /\
   fs (writeDeploymentEnvVar w deploymentType deployment st).2 = fs st).
Proof.
  unfold writeDeploymentEnvVar, mbind, M_bind, get_fs, get_env, set_env; simpl.
  destruct (changesToEnvVarFile w (fs st !! ENV_VAR_FILE_PATH) deploymentType deployment)
    as [changed|] eqn:Hchanged.
  - split; [|intros Hnone; unfold ENV_VAR_FILE_PATH in Hchanged; congruence].
    unfold writeUtf8File; simpl.
    rewrite gitIgnoreEnvVarFile_env. simpl. apply lookup_insert_eq.
  - simpl. split; [apply lookup_insert_eq|]. intros _. split; reflexivity.
Qed.

Lemma writeDeploymentEnvVar_sets_process_env_witness :
  changesToEnvVarFile sample_world (fs (state_with ∅) !! ".env.local") Dev
    {| team := "t"; project := "p"; deploymentName := "d1234" |} = None /\
  env (writeDeploymentEnvVar sample_world Dev
         {| team := "t"; project := "p"; deploymentName := "d1234" |}
         (state_with ∅)).2 !! "CONVEX_DEPLOYMENT" = Some "dev:d1234" /\
  (writeDeploymentEnvVar sample_world Dev
     {| team := "t"; project := "p"; deploymentName := "d1234" |}
     (state_with ∅)).1 = Done false /\
  fs (writeDeploymentEnvVar sample_world Dev
        {| team := "t"; project := "p"; deploymentName := "d1234" |}
        (state_with ∅)).2 = ∅.
Proof.
  split; [reflexivity|].
  destruct (writeDeploymentEnvVar_sets_process_env sample_world Dev
              {| team := "t"; project := "p"; deploymentName := "d1234" |}
              (state_with ∅)) as [Henv Hnone].
  split; [exact Henv|].
  apply Hnone. reflexivity.
Defined.

(** ** What a computation may add to the trace *)

Section Emits.

Variable P : Event -> bool.

Lemma emits_ret {A} (a : A) : emits P (mret a : M A).
Proof. intros st. exists []. simpl. rewrite app_nil_r. split; reflexivity. Qed.

Lemma emits_crash {A} (code : Z) : emits P (crash code : M A).
Proof. intros st. exists []. simpl. rewrite app_nil_r. split; reflexivity. Qed.

Lemma emits_ask {A} (r : Res A) : emits P (ask r).
Proof. intros st. exists []. simpl. rewrite app_nil_r. split; reflexivity. Qed.

Lemma emits_get_env : emits P get_env.
Proof. intros st. exists []. simpl. rewrite app_nil_r. split; reflexivity. Qed.

Lemma emits_set_env (e : gmap string string) : emits P (set_env e).
Proof. intros st. exists []. simpl. rewrite app_nil_r. split; reflexivity. Qed.

Lemma emits_emit (e : Event) : P e = true -> emits P (emit e).
Proof. intros He st. exists [e]. simpl. rewrite He. split; reflexivity. Qed.

Lemma emits_call {A} (e : Event) (r : Res A) : P e = true -> emits P (call e r).
Proof. intros He st. exists [e]. simpl. rewrite He. split; reflexivity. Qed.

Lemma emits_bind {A B} (m : M A) (f : A -> M B) :
  emits P m -> (forall a, emits P (f a)) -> emits P (m ≫= f).
Proof.
  intros Hm Hf st. unfold mbind, M_bind.
  destruct (Hm st) as (new1 & Htr1 & Hall1).
  destruct (m st) as [[a|code] st1]; simpl in *.
  - destruct (Hf a st1) as (new2 & Htr2 & Hall2).
    exists (new1 ++ new2). split.
    + rewrite Htr2, Htr1, app_assoc. reflexivity.
    + rewrite forallb_app, Hall1, Hall2. reflexivity.
  - exists new1. split; assumption.
Qed.

End Emits.

Ltac emits_step :=
  lazymatch goal with
  | |- emits _ (mbind _ _) => apply emits_bind; [|intros ?]
  | |- emits _ (mret _) => apply emits_ret
  | |- emits _ (crash _) => apply emits_crash
  | |- emits _ (ask _) => apply emits_ask
  | |- emits _ get_env => apply emits_get_env
  | |- emits _ (set_env _) => apply emits_set_env
  | |- emits _ (emit _) => apply emits_emit; reflexivity
  | |- emits _ (call _ _) => apply emits_call; reflexivity
  | |- emits _ (match ?x with _ => _ end) => destruct x
  end.

Ltac emits_auto :=
  unfold logError, logFailure, logFinishedStep, logMessage, logOutput, showSpinner;
  repeat emits_step.

Lemma deploymentNameFromAdminKeyOrCrash_emits (P : Event -> bool) (key : string) :
  (forall msg, P (LogFailure msg) = true) ->
  emits P (deploymentNameFromAdminKeyOrCrash key).
Proof.
  intros HP. unfold deploymentNameFromAdminKeyOrCrash.
  destruct (deploymentNameFromAdminKey key); emits_auto.
  apply emits_emit, HP.
Qed.

(** In a dry run [runCommand] only narrates. *)
Lemma runCommand_dry_run_emits (w : World) (options : RunCommandOptions) :
  truthy (rc_dryRun options) = true ->
  emits is_narration (runCommand w options).
Proof.
  intros Hdry. unfold runCommand. rewrite Hdry. simpl. emits_auto.
Qed.

(** [runCommand] never asks the operator and never pushes. *)
Lemma runCommand_emits_quiet (w : World) (options : RunCommandOptions) :
  emits (fun e => negb (is_prompt e) && negb (is_push e)) (runCommand w options).
Proof. unfold runCommand. emits_auto. Qed.

(** ** The action of the command *)

Lemma handleProduction_parts (w : World) (options : CmdOptions) :
  handleProduction w options =
    (credentials ← call FetchDeploymentCredentials
                     (fetchDeploymentCredentialsWithinCurrentProject w
                        (deploymentSelectionFromOptions w options));
     confirmPush w options credentials;;
     pushToProd w options credentials).
Proof. reflexivity. Qed.


(** Against [undefined] the same guard holds for a missing deployment and
    a missing flag. *)
Example deploy_key_guard_against_undefined :
  is_null (nullable (None : option string)) &&
  is_undefined (optional (None : option string)) = true.
Proof. reflexivity. Qed.

(** C3: with the build-environment check enabled, which is the default, a
    non-production build environment and a configured deploy key of type
    ["prod"] end the command with exit code 1 right after the error
    message: no deployment is resolved, nothing is pushed. *)
Theorem deploy_build_environment_check
    (w : World) (cmdOptions : CmdOptions) (st : State) (key : string) :
  checkBuildEnvironment cmdOptions = Enable ->
  isNonProdBuildEnvironment w
    (storeAdminKeyEnvVar w (adminKey cmdOptions) (env st)) = true ->
  readAdminKeyFromEnvVar w
    (storeAdminKeyEnvVar w (adminKey cmdOptions) (env st)) = Some key ->
  deploymentTypeFromAdminKey key = "prod" ->
  checkBuildEnvironment defaults = Enable /\
  deploy w cmdOptions st =
    (Crashed 1,
     {| env := storeAdminKeyEnvVar w (adminKey cmdOptions) (env st);
        fs := fs st;
        trace := trace st ++
          [LogError ("Detected a non-production build environment and " +:+ dq +:+
                     "CONVEX_DEPLOY_KEY" +:+ dq +:+
                     " for a production Convex deployment." +:+ nl +:+ nl +:+
                     "          This is probably unintentional." +:+ nl +:+
                     "          ")] |}).
Proof.
  intros Hcheck Hbuild Hkey Htype. split; [reflexivity|].
  unfold deploy, mbind, M_bind, get_env, set_env. simpl.
  rewrite Hcheck, Hbuild, Hkey. simpl. rewrite Htype. reflexivity.
Qed.

Lemma deploy_build_environment_check_witness :
  deploy sample_world defaults
    (state_with {[ "CONVEX_DEPLOY_KEY" := "prod:happy-otter-123|secret";
                   "VERCEL_ENV" := "preview" ]}) =
    (Crashed 1,
     {| env := {[ "CONVEX_DEPLOY_KEY" := "prod:happy-otter-123|secret";
                  "VERCEL_ENV" := "preview" ]};
        fs := ∅;
        trace :=
          [LogError ("Detected a non-production build environment and " +:+ dq +:+
                     "CONVEX_DEPLOY_KEY" +:+ dq +:+
                     " for a production Convex deployment." +:+ nl +:+ nl +:+
                     "          This is probably unintentional." +:+ nl +:+
                     "          ")] |}).
Proof.
  exact (proj2 (deploy_build_environment_check sample_world defaults
                  (state_with {[ "CONVEX_DEPLOY_KEY" := "prod:happy-otter-123|secret";
                                 "VERCEL_ENV" := "preview" ]})
                  "prod:happy-otter-123|secret"
                  eq_refl eq_refl eq_refl eq_refl)).
Defined.








(** ** The production flow *)

Lemma emits_weaken (P Q : Event -> bool) {A} (m : M A) :
  (forall e, P e = true -> Q e = true) -> emits P m -> emits Q m.
Proof.
  intros HPQ Hm st. destruct (Hm st) as (new & Htr & Hall).
  exists new. split; [exact Htr|].
  apply forallb_forall. intros e He.
  apply HPQ. eapply forallb_forall in Hall; eassumption.
Qed.

Lemma pushToProd_emits (w : World) (options : CmdOptions) (credentials : Credentials) :
  emits (fun e => negb (is_prompt e)) (pushToProd w options credentials).
Proof.
  unfold pushToProd.
  apply emits_bind; [|intros ?].
  { eapply emits_weaken; [|apply runCommand_emits_quiet].
    intros e [He _]%andb_true_iff. exact He. }
  emits_auto.
  apply deploymentNameFromAdminKeyOrCrash_emits. reflexivity.
Qed.

Lemma pushToProd_pushes (w : World) (options : CmdOptions) (credentials : Credentials)
    (st st' : State) :
  runCommand w (prodRunCommandOptions options credentials) st = (Done tt, st') ->
  In (RunPush (prodPushOptions options credentials))
     (trace (pushToProd w options credentials st).2).
Proof.
  intros Hrun. unfold pushToProd, mbind, M_bind. rewrite Hrun.
  unfold showSpinner, logFinishedStep, logOutput, emit, call,
    deploymentNameFromAdminKeyOrCrash, logFailure, crash, mbind, M_bind, mret, M_ret.
  destruct (runPush w (prodPushOptions options credentials)) as [[]|code];
    destruct (truthy (logDeploymentName options));
    destruct (deploymentNameFromAdminKey (cr_adminKey credentials));
    cbn [fst snd trace env fs]; apply list_elem_of_In; set_solver.
Qed.

Lemma confirmPush_skipped (w : World) (options : CmdOptions) (credentials : Credentials)
    (configuredName selectedName : string) (st : State) :
  cr_deploymentNames credentials =
    Some {| configured := Some configuredName; selected := selectedName |} ->
  selectedName = configuredName \/ yes options = Some true ->
  confirmPush w options credentials st = (Done tt, st).
Proof.
  intros Hnames Hskip. unfold confirmPush. rewrite Hnames.
  unfold mbind, M_bind.
  destruct (String.eqb_spec selectedName configuredName) as [Heq|Hne]; [reflexivity|].
  destruct Hskip as [Heq|Hyes]; [contradiction|].
  rewrite Hyes. reflexivity.
Qed.

Lemma confirmPush_asks (w : World) (options : CmdOptions) (credentials : Credentials)
    (configuredName selectedName envVar : string) (st : State) :
  cr_deploymentNames credentials =
    Some {| configured := Some configuredName; selected := selectedName |} ->
  selectedName <> configuredName ->
  yes options = None ->
  suggestedEnvVarName w = Done envVar ->
  exists message,
    confirmPush w options credentials st =
      (if prompt w (confirmQuestion selectedName) then Done tt else Crashed 1,
       {| env := env st; fs := fs st;
          trace := trace st ++
            [LogMessage message; Prompt (confirmQuestion selectedName)] |}).
Proof.
  intros Hnames Hne Hyes Henv. unfold confirmPush. rewrite Hnames, Hyes.
  destruct (String.eqb_spec selectedName configuredName) as [Heq|_]; [contradiction|].
  unfold askToConfirmPush, mbind, M_bind, ask. rewrite Henv.
  unfold logMessage, emit. eexists. cbn [trace env fs].
  rewrite <- app_assoc. unfold confirmQuestion.
  destruct (prompt w _); reflexivity.
Qed.

(** C4: in the production flow, when the credentials carry both the
    configured and the selected deployment name: with equal names nobody
    is asked; with different names and [--yes] nobody is asked and the
    flow goes on to the command and the push; with different names and no
    [--yes] the operator is asked, and a refusal ends the command with
    exit code 1 before any command is spawned or anything is pushed. *)
Theorem handleProduction_confirmation
    (w : World) (options : CmdOptions) (st : State) (credentials : Credentials)
    (configuredName selectedName : string) :
  fetchDeploymentCredentialsWithinCurrentProject w
    (deploymentSelectionFromOptions w options) = Done credentials ->
  cr_deploymentNames credentials =
    Some {| configured := Some configuredName; selected := selectedName |} ->
  let fetched := {| env := env st; fs := fs st;
                    trace := trace st ++ [FetchDeploymentCredentials] |} in
  (selectedName = configuredName ->
   exists new,
     trace (handleProduction w options st).2 = trace st ++ new /\
     forallb (fun e => negb (is_prompt e)) new = true) /\
  (selectedName <> configuredName -> yes options = Some true ->
   (exists new,
      trace (handleProduction w options st).2 = trace st ++ new /\
      forallb (fun e => negb (is_prompt e)) new = true) /\
   handleProduction w options st = pushToProd w options credentials fetched /\
   (forall st', runCommand w (prodRunCommandOptions options credentials) fetched =
                  (Done tt, st') ->
                In (RunPush (prodPushOptions options credentials))
                   (trace (handleProduction w options st).2))) /\
  (selectedName <> configuredName -> yes options = None ->
   forall envVar, suggestedEnvVarName w = Done envVar ->
   In (Prompt (confirmQuestion selectedName)) (trace (handleProduction w options st).2) /\
   (prompt w (confirmQuestion selectedName) = false ->
    (handleProduction w options st).1 = Crashed 1 /\
    exists new,
      trace (handleProduction w options st).2 = trace st ++ new /\
      forallb (fun e => negb (is_push e) && negb (is_spawn e)) new = true)).
Proof.
  intros Hfetch Hnames fetched.
  assert (Hskip : selectedName = configuredName \/ yes options = Some true ->
                  handleProduction w options st = pushToProd w options credentials fetched).
  { intros Hcase. rewrite handleProduction_parts.
    unfold mbind at 1. unfold M_bind, call. rewrite Hfetch.
    unfold mbind at 1. unfold M_bind.
    rewrite (confirmPush_skipped w options credentials configuredName selectedName)
      by assumption.
    reflexivity. }
  assert (Hquiet : handleProduction w options st = pushToProd w options credentials fetched ->
                   exists new,
                     trace (handleProduction w options st).2 = trace st ++ new /\
                     forallb (fun e => negb (is_prompt e)) new = true).
  { intros ->. destruct (pushToProd_emits w options credentials fetched)
      as (new & Htr & Hall).
    exists (FetchDeploymentCredentials :: new). split.
    - rewrite Htr. unfold fetched. cbn [trace]. rewrite <- app_assoc. reflexivity.
    - simpl. exact Hall. }
  split; [|split].
  - intros Heq. apply Hquiet, Hskip. left. exact Heq.
  - intros _ Hyes. pose proof (Hskip (or_intror Hyes)) as Hgo.
    split; [apply Hquiet, Hgo|]. split; [exact Hgo|].
    intros st' Hrun. rewrite Hgo. eapply pushToProd_pushes. exact Hrun.
  - intros Hne Hyes envVar Henv.
    destruct (confirmPush_asks w options credentials configuredName selectedName
                envVar fetched Hnames Hne Hyes Henv) as (message & Hconfirm).
    set (asked := {| env := env fetched; fs := fs fetched;
                     trace := trace fetched ++
                       [LogMessage message; Prompt (confirmQuestion selectedName)] |})
      in Hconfirm.
    assert (Hasked : handleProduction w options st =
                       if prompt w (confirmQuestion selectedName)
                       then pushToProd w options credentials asked
                       else (Crashed 1, asked)).
    { rewrite handleProduction_parts. unfold mbind, M_bind, call.
      rewrite Hfetch. fold fetched. rewrite Hconfirm.
      destruct (prompt w (confirmQuestion selectedName)); reflexivity. }
    rewrite Hasked. split.
    + destruct (prompt w (confirmQuestion selectedName)).
      * destruct (pushToProd_emits w options credentials asked) as (new & -> & _).
        apply list_elem_of_In. unfold asked. cbn [trace]. set_solver.
      * apply list_elem_of_In. unfold asked. cbn [snd trace]. set_solver.
    + intros ->. split; [reflexivity|].
      exists [FetchDeploymentCredentials; LogMessage message;
              Prompt (confirmQuestion selectedName)].
      unfold asked, fetched. cbn [snd trace]. rewrite <- app_assoc.
      split; reflexivity.
Qed.

Lemma handleProduction_confirmation_witness :
  (exists new,
     trace (handleProduction
              (world_with (Done (prod_credentials (Some "happy-otter-123"))) true)
              defaults (state_with ∅)).2 = [] ++ new /\
     forallb (fun e => negb (is_prompt e)) new = true) /\
  In (RunPush (prodPushOptions (yes_options (Some true))
                 (prod_credentials (Some "tall-forest-1234"))))
     (trace (handleProduction sample_world (yes_options (Some true))
               (state_with ∅)).2) /\
  (handleProduction sample_world defaults (state_with ∅)).1 = Crashed 1.
Proof.
  assert (Hne : "happy-otter-123" <> "tall-forest-1234") by discriminate.
  split; [|split].
  - exact (proj1 (handleProduction_confirmation
                    (world_with (Done (prod_credentials (Some "happy-otter-123"))) true)
                    defaults (state_with ∅)
                    (prod_credentials (Some "happy-otter-123"))
                    "happy-otter-123" "happy-otter-123" eq_refl eq_refl)
             eq_refl).
  - exact (proj2 (proj2 (proj1 (proj2 (handleProduction_confirmation
                                         sample_world (yes_options (Some true))
                                         (state_with ∅)
                                         (prod_credentials (Some "tall-forest-1234"))
                                         "tall-forest-1234" "happy-otter-123"
                                         eq_refl eq_refl))
                           Hne eq_refl))
             _ eq_refl).
  - exact (proj1 (proj2 (proj2 (proj2 (handleProduction_confirmation
                                         sample_world defaults (state_with ∅)
                                         (prod_credentials (Some "tall-forest-1234"))
                                         "tall-forest-1234" "happy-otter-123"
                                         eq_refl eq_refl))
                           Hne eq_refl "CONVEX_URL" eq_refl)
                    eq_refl)).
Defined.

(** ** The preview flow *)

Lemma runCommand_dry_run (w : World) (options : RunCommandOptions) (st : State)
    (command urlVar : string) :
  rc_cmd options = Some command ->
  truthy (rc_dryRun options) = true ->
  match rc_cmdUrlEnvVarName options with
  | Some name => Done name
  | None => suggestedEnvVarName w
  end = Done urlVar ->
  runCommand w options st =
    (Done tt,
     {| env := env st; fs := fs st;
        trace := trace st ++
          [ShowSpinner ("Running '" +:+ command +:+ "' with environment variable " +:+
                        dq +:+ urlVar +:+ dq +:+ " set... [dry run]");
           LogFinishedStep ("Would have run " +:+ dq +:+ command +:+ dq +:+
                            " with environment variable " +:+ dq +:+ urlVar +:+ dq +:+
                            " set")] |}).
Proof.
  intros Hcmd Hdry Hvar. unfold runCommand. rewrite Hcmd, Hdry.
  unfold mbind, M_bind, showSpinner, logFinishedStep, emit.
  destruct (rc_cmdUrlEnvVarName options) as [name|].
  - injection Hvar as ->. cbn. rewrite <- app_assoc. reflexivity.
  - unfold ask. rewrite Hvar. cbn. rewrite <- app_assoc. reflexivity.
Qed.

(** C7, as the code has it: a dry run of the preview flow adds only
    narration to the trace, so it makes no network call and spawns no
    command; when the preview name and the variable name are known it
    ends normally after telling, in its own words, what it would have
    done. *)
Theorem handlePreview_dry_run
    (w : World) (configuredDeployKey : string) (options : CmdOptions) (st : State) :
  truthy (dryRun options) = true ->
  (exists new,
     trace (handlePreview w configuredDeployKey options st).2 = trace st ++ new /\
     forallb (fun e => is_narration e && negb (is_network_call e) && negb (is_spawn e))
       new = true) /\
  (forall name urlVar,
     coalesce (optional (previewCreate options))
       (gitBranchFromEnvironment w (env st)) = Some name ->
     cmd options = None \/ urlVarFor w options = Done urlVar ->
     handlePreview w configuredDeployKey options st =
       (Done tt,
        {| env := env st; fs := fs st;
           trace := trace st ++ dryRunNarration name urlVar options |})).
Proof.
  intros Hdry. split.
  - assert (Hall : emits (fun e => is_narration e && negb (is_network_call e) &&
                                   negb (is_spawn e))
                     (handlePreview w configuredDeployKey options)).
    { unfold handlePreview. rewrite Hdry. cbv iota.
      apply emits_bind; [apply emits_get_env|intros e].
      apply emits_bind; [destruct (coalesce _ _); emits_auto|intros name].
      apply emits_bind; [emits_auto|intros _].
      apply emits_bind.
      { eapply emits_weaken; [|apply runCommand_dry_run_emits; reflexivity].
        intros [] He; (discriminate He || reflexivity). }
      intros _. emits_auto. }
    apply Hall.
  - intros name urlVar Hname Hvar.
    unfold handlePreview. rewrite Hdry. cbv iota.
    unfold mbind at 1. unfold M_bind, get_env.
    unfold mbind at 1. unfold M_bind. rewrite Hname.
    unfold mret at 1. unfold M_ret.
    unfold dryRunNarration.
    destruct (cmd options) as [command|] eqn:Hcmd.
    + destruct Hvar as [Hvar|Hvar]; [discriminate|].
      unfold mbind, M_bind, logFinishedStep, logMessage, emit.
      cbn [env fs trace].
      erewrite runCommand_dry_run; [|reflexivity|reflexivity|exact Hvar].
      destruct (previewRun options); cbn [env fs trace mret M_ret];
        rewrite <- ?app_assoc; reflexivity.
    + unfold runCommand. cbn [rc_cmd].
      unfold mbind, M_bind, logFinishedStep, logMessage, emit.
      destruct (previewRun options); cbn [env fs trace mret M_ret];
        rewrite <- ?app_assoc; reflexivity.
Qed.

Lemma handlePreview_dry_run_witness :
  (exists new,
     trace (handlePreview sample_world "preview:team:proj|secret"
              (command_options (Some "vite build") (Some true)) (state_with ∅)).2 =
       [] ++ new /\
     forallb (fun e => is_narration e && negb (is_network_call e) && negb (is_spawn e))
       new = true) /\
  handlePreview sample_world "preview:team:proj|secret"
    (command_options (Some "vite build") (Some true)) (state_with ∅) =
    (Done tt,
     {| env := ∅; fs := ∅;
        trace :=
          [LogFinishedStep ("Would have claimed preview deployment for " +:+
                            dq +:+ "feature" +:+ dq);
           ShowSpinner ("Running 'vite build' with environment variable " +:+
                        dq +:+ "VITE_CONVEX_URL" +:+ dq +:+ " set... [dry run]");
           LogFinishedStep ("Would have run " +:+ dq +:+ "vite build" +:+ dq +:+
                            " with environment variable " +:+
                            dq +:+ "VITE_CONVEX_URL" +:+ dq +:+ " set");
           LogFinishedStep ("Would have deployed Convex functions to preview deployment for " +:+
                            dq +:+ "feature" +:+ dq);
           LogMessage ("Would have run function " +:+ dq +:+ "init" +:+ dq)] |}) /\
  handlePreview sample_world "preview:team:proj|secret"
    (preview_options (Some true)) (state_with ∅) =
    (Done tt,
     {| env := ∅; fs := ∅;
        trace := [] ++ dryRunNarration "feature" "" (preview_options (Some true)) |}).
Proof.
  split; [|split].
  - exact (proj1 (handlePreview_dry_run sample_world "preview:team:proj|secret"
                    (command_options (Some "vite build") (Some true))
                    (state_with ∅) eq_refl)).
  - exact (proj2 (handlePreview_dry_run sample_world "preview:team:proj|secret"
                    (command_options (Some "vite build") (Some true))
                    (state_with ∅) eq_refl)
             "feature" "VITE_CONVEX_URL" eq_refl (or_intror eq_refl)).
  - exact (proj2 (handlePreview_dry_run sample_world "preview:team:proj|secret"
                    (preview_options (Some true)) (state_with ∅) eq_refl)
             "feature" "" eq_refl (or_introl eq_refl)).
Defined.

(** C7, as stated, fails: with the claim API answering the placeholder
    URL, the real flow tells of deploying to that URL, and the dry run
    tells of a claim and a deployment "for" the preview name. *)
Lemma handlePreview_dry_run_narration_differs :
  narration (trace (handlePreview sample_world "preview:team:proj|secret"
                      (preview_options (Some true)) (state_with ∅)).2) =
    [LogFinishedStep ("Would have claimed preview deployment for " +:+
                      dq +:+ "feature" +:+ dq);
     LogFinishedStep ("Would have deployed Convex functions to preview deployment for " +:+
                      dq +:+ "feature" +:+ dq)] /\
  narration (trace (handlePreview sample_world "preview:team:proj|secret"
                      (preview_options None) (state_with ∅)).2) =
    [ShowSpinner "Deploying to https://<PREVIEW DEPLOYMENT>.convex.cloud...";
     LogFinishedStep
       "Deployed Convex functions to https://<PREVIEW DEPLOYMENT>.convex.cloud"] /\
  narration (trace (handlePreview sample_world "preview:team:proj|secret"
                      (preview_options (Some true)) (state_with ∅)).2) <>
  narration (trace (handlePreview sample_world "preview:team:proj|secret"
                      (preview_options None) (state_with ∅)).2).
Proof.
  split; [reflexivity|]. split; [reflexivity|].
  intros H. vm_compute in H. discriminate H.
Qed.

(** ** More on admin keys *)

Section SubstringFacts.

Variable c : ascii.

Lemma contains_app (s t : string) :
  contains c (s +:+ t) = contains c s || contains c t.
Proof.
  induction s as [|a s IH]; simpl; [reflexivity|].
  rewrite IH, orb_assoc. reflexivity.
Qed.

Lemma contains_before_first (s : string) : contains c (before_first c s) = false.
Proof.
  induction s as [|a s IH]; simpl; [reflexivity|].
  destruct (Ascii.eqb a c) eqn:Ha; simpl; [reflexivity|].
  rewrite Ha, IH. reflexivity.
Qed.

Lemma contains_after_last (s : string) : contains c (after_last c s) = false.
Proof.
  induction s as [|a s IH]; simpl; [reflexivity|].
  destruct (contains c s) eqn:Hs; [exact IH|].
  destruct (Ascii.eqb a c) eqn:Ha; [exact Hs|].
  simpl. rewrite Ha, Hs. reflexivity.
Qed.

Lemma contains_before_first_other (d : ascii) (s : string) :
  contains d s = false -> contains d (before_first c s) = false.
Proof.
  induction s as [|a s IH]; simpl; [reflexivity|].
  intros [Ha Hs]%orb_false_elim.
  destruct (Ascii.eqb a c); simpl; [reflexivity|].
  rewrite Ha, IH by exact Hs. reflexivity.
Qed.

Lemma contains_after_last_other (d : ascii) (s : string) :
  contains d s = false -> contains d (after_last c s) = false.
Proof.
  induction s as [|a s IH]; simpl; [reflexivity|].
  intros [Ha Hs]%orb_false_elim.
  destruct (contains c s); [apply IH, Hs|].
  destruct (Ascii.eqb a c); [exact Hs|].
  simpl. rewrite Ha, Hs. reflexivity.
Qed.

Lemma before_first_app (s t : string) :
  contains c s = false -> before_first c (s +:+ String c t) = s.
Proof.
  induction s as [|a s IH]; simpl.
  - intros _. rewrite Ascii.eqb_refl. reflexivity.
  - intros [Ha Hs]%orb_false_elim. rewrite Ha, IH by exact Hs. reflexivity.
Qed.

Lemma after_last_app (s t : string) :
  contains c t = false -> after_last c (s +:+ String c t) = t.
Proof.
  intros Ht. induction s as [|a s IH]; simpl.
  - rewrite Ht, Ascii.eqb_refl. reflexivity.
  - rewrite contains_app. simpl. rewrite Ascii.eqb_refl, orb_true_r. exact IH.
Qed.

End SubstringFacts.

(** X1: what the parsers return never holds the separator they split on:
    a deployment type and a stripped deployment have no colon, and a
    deployment name read from an admin key has neither a colon nor a
    vertical bar. *)
Theorem admin_key_parts_separator_free (adminKey : string) :
  contains ":" (deploymentTypeFromAdminKey adminKey) = false /\
  contains ":" (stripDeploymentTypePrefix adminKey) = false /\
  (forall name, deploymentNameFromAdminKey adminKey = Some name ->
                contains ":" name = false /\ contains "|" name = false).
Proof.
  split; [|split].
  - rewrite deploymentTypeFromAdminKey_cases.
    destruct (contains ":" adminKey); [apply contains_before_first|reflexivity].
  - rewrite stripDeploymentTypePrefix_after_last. apply contains_after_last.
  - intros name. rewrite deploymentNameFromAdminKey_cases.
    destruct (negb (contains "|" adminKey)); [discriminate|].
    destruct (String.eqb _ "prod"); [|discriminate].
    intros [= <-]. split; [apply contains_after_last|].
    apply contains_after_last_other, contains_before_first.
Qed.

Lemma admin_key_parts_separator_free_witness :
  deploymentNameFromAdminKey "prod:eu:myapp-1234|se:cr|et" = Some "myapp-1234" /\
  contains ":" "myapp-1234" = false /\ contains "|" "myapp-1234" = false.
Proof.
  split; [reflexivity|].
  exact (proj2 (proj2 (admin_key_parts_separator_free "prod:eu:myapp-1234|se:cr|et"))
           "myapp-1234" eq_refl).
Defined.

Lemma typed_key_type (type rest : string) :
  contains ":" type = false ->
  deploymentTypeFromAdminKey (type +:+ String ":" rest) = type.
Proof.
  intros Htype. rewrite deploymentTypeFromAdminKey_cases, contains_app.
  simpl. rewrite orb_true_r. apply before_first_app, Htype.
Qed.

(** X2: an admin key put together as type, colon, name, bar and secret is
    read back: the type is the part given as type when it has no colon,
    and for the type ["prod"] the name is the part given as name when it
    has neither a colon nor a bar, whatever the secret holds. *)
Theorem admin_key_round_trip (type name secret : string) :
  contains ":" type = false ->
  contains ":" name = false ->
  contains "|" name = false ->
  deploymentTypeFromAdminKey (type +:+ ":" +:+ name +:+ "|" +:+ secret) = type /\
  deploymentNameFromAdminKey ("prod" +:+ ":" +:+ name +:+ "|" +:+ secret) = Some name.
Proof.
  intros Htype Hcolon Hbar. split.
  - apply (typed_key_type type (name +:+ "|" +:+ secret)), Htype.
  - set (key := "prod" +:+ ":" +:+ name +:+ "|" +:+ secret).
    assert (Htyped : deploymentTypeFromAdminKey key = "prod")
      by (apply (typed_key_type "prod" (name +:+ "|" +:+ secret)); reflexivity).
    assert (Hhas : contains "|" key = true).
    { change key with (("prod:" +:+ name) +:+ String "|" secret).
      rewrite contains_app. simpl. apply orb_true_r. }
    assert (Hbefore : before_first "|" key = "prod:" +:+ name).
    { apply (before_first_app "|" ("prod:" +:+ name) secret). simpl. exact Hbar. }
    rewrite deploymentNameFromAdminKey_cases, Hhas, Htyped, Hbefore. simpl.
    f_equal. apply (after_last_app ":" "prod" name), Hcolon.
Qed.

Lemma admin_key_round_trip_witness :
  deploymentTypeFromAdminKey ("preview" +:+ ":" +:+ "happy-otter-123" +:+ "|" +:+ "se:cr|et") =
    "preview" /\
  deploymentNameFromAdminKey ("prod" +:+ ":" +:+ "happy-otter-123" +:+ "|" +:+ "se:cr|et") =
    Some "happy-otter-123".
Proof.
  exact (admin_key_round_trip "preview" "happy-otter-123" "se:cr|et"
           eq_refl eq_refl eq_refl).
Defined.

Lemma before_first_app_absent (c : ascii) (s t : string) :
  contains c s = false -> before_first c (s +:+ t) = s +:+ before_first c t.
Proof.
  induction s as [|a s IH]; simpl; [reflexivity|].
  intros [Ha Hs]%orb_false_elim. rewrite Ha, IH by exact Hs. reflexivity.
Qed.

(** X3: a key without a type prefix, name, bar and secret, gives its name
    and the type ["prod"] when the secret has no colon; a colon in the
    secret turns everything before it into the type, and the name is
    [null]. *)
Theorem untyped_admin_key (name secret : string) :
  contains ":" name = false ->
  contains "|" name = false ->
  (contains ":" secret = false ->
   deploymentTypeFromAdminKey (name +:+ "|" +:+ secret) = "prod" /\
   deploymentNameFromAdminKey (name +:+ "|" +:+ secret) = Some name) /\
  (contains ":" secret = true ->
   deploymentTypeFromAdminKey (name +:+ "|" +:+ secret) =
     name +:+ "|" +:+ before_first ":" secret /\
   deploymentNameFromAdminKey (name +:+ "|" +:+ secret) = None).
Proof.
  intros Hcolon Hbar.
  set (key := name +:+ "|" +:+ secret).
  assert (Hkey : contains ":" key = contains ":" secret).
  { unfold key. rewrite contains_app, Hcolon. reflexivity. }
  assert (Hhas : contains "|" key = true).
  { unfold key. rewrite contains_app. simpl. apply orb_true_r. }
  assert (Hbefore : before_first "|" key = name)
    by (apply (before_first_app "|" name secret), Hbar).
  split; intros Hsecret.
  - assert (Htype : deploymentTypeFromAdminKey key = "prod")
      by (rewrite deploymentTypeFromAdminKey_cases, Hkey, Hsecret; reflexivity).
    split; [exact Htype|].
    rewrite deploymentNameFromAdminKey_cases, Hhas, Htype, Hbefore. simpl.
    rewrite after_last_absent by exact Hcolon. reflexivity.
  - assert (Htype : deploymentTypeFromAdminKey key =
                      name +:+ "|" +:+ before_first ":" secret).
    { rewrite deploymentTypeFromAdminKey_cases, Hkey, Hsecret. unfold key.
      rewrite before_first_app_absent by exact Hcolon. reflexivity. }
    split; [exact Htype|].
    rewrite deploymentNameFromAdminKey_cases, Hhas, Htype. simpl.
    destruct (String.eqb_spec (name +:+ "|" +:+ before_first ":" secret) "prod")
      as [Heq|_]; [|reflexivity].
    apply (f_equal (contains "|")) in Heq.
    rewrite contains_app in Heq. simpl in Heq. rewrite orb_true_r in Heq.
    discriminate Heq.
Qed.

Lemma untyped_admin_key_witness :
  (deploymentTypeFromAdminKey ("myapp-1234" +:+ "|" +:+ "secret") = "prod" /\
   deploymentNameFromAdminKey ("myapp-1234" +:+ "|" +:+ "secret") = Some "myapp-1234") /\
  (deploymentTypeFromAdminKey ("myapp-1234" +:+ "|" +:+ "se:cret") = "myapp-1234|se" /\
   deploymentNameFromAdminKey ("myapp-1234" +:+ "|" +:+ "se:cret") = None).
Proof.
  split.
  - exact (proj1 (untyped_admin_key "myapp-1234" "secret" eq_refl eq_refl) eq_refl).
  - exact (proj2 (untyped_admin_key "myapp-1234" "se:cret" eq_refl eq_refl) eq_refl).
Defined.

(** ** More on the files *)

Lemma changesToGitIgnore_existing (existingFile : string) :
  changesToGitIgnore (Some existingFile) =
    if existsb ignoresEnvVarFile (split "010" existingFile) then None
    else Some (existingFile +:+ nl +:+ ".env.local" +:+ nl).
Proof.
  unfold changesToGitIgnore, some.
  change (fun line : string =>
            String.eqb line ".env.local" || String.eqb line ".env.*" ||
            String.eqb line ".env*" || String.eqb line "*.local" ||
            String.eqb line ".env*.local") with ignoresEnvVarFile.
  destruct (existsb ignoresEnvVarFile (split "010" existingFile)); reflexivity.
Qed.

Lemma appended_is_ignored (existingFile : string) :
  existsb ignoresEnvVarFile
    (split "010" (existingFile +:+ nl +:+ ".env.local" +:+ nl)) = true.
Proof.
  change (existingFile +:+ nl +:+ ".env.local" +:+ nl)
    with (existingFile +:+ String "010" (".env.local" +:+ nl)).
  rewrite split_app, existsb_app. simpl. apply orb_true_r.
Qed.

Lemma gitIgnoreEnvVarFile_effect (st : State) :
  let before := default "" (fs st !! ".gitignore") in
  let covered := existsb ignoresEnvVarFile (split "010" before) in
  (gitIgnoreEnvVarFile st).1 = Done (negb covered) /\
  (exists content,
     fs (gitIgnoreEnvVarFile st).2 !! ".gitignore" = Some content /\
     existsb ignoresEnvVarFile (split "010" content) = true /\
     (covered = true -> fs st !! ".gitignore" = Some content)) /\
  (forall path, path <> ".gitignore" ->
                fs (gitIgnoreEnvVarFile st).2 !! path = fs st !! path) /\
  env (gitIgnoreEnvVarFile st).2 = env st /\
  trace (gitIgnoreEnvVarFile st).2 = trace st.
Proof.
  intros before covered.
  unfold gitIgnoreEnvVarFile, mbind, M_bind, get_fs.
  fold before. rewrite changesToGitIgnore_existing. fold covered.
  destruct covered eqn:Hcovered; simpl.
  - split; [reflexivity|]. split; [|repeat split; reflexivity].
    destruct (fs st !! ".gitignore") as [content|] eqn:Hfile.
    + exists content. subst before. simpl in Hcovered. auto.
    + subst covered before. simpl in Hcovered. discriminate Hcovered.
  - split; [reflexivity|]. split; [|split; [|split; reflexivity]].
    + eexists. split; [apply lookup_insert_eq|].
      split; [apply appended_is_ignored|discriminate].
    + intros path Hpath. apply lookup_insert_ne. congruence.
Qed.

(** X4: after [gitIgnoreEnvVarFile] the file [.gitignore] exists and has
    a line that is one of the accepted patterns; the result tells whether
    the file was written, which happens exactly when no such line was
    there; no other file, no environment variable and no trace entry is
    touched. *)
Theorem gitIgnoreEnvVarFile_covers (st : State) :
  let before := default "" (fs st !! ".gitignore") in
  let covered := existsb ignoresEnvVarFile (split "010" before) in
  (gitIgnoreEnvVarFile st).1 = Done (negb covered) /\
  (exists content,
     fs (gitIgnoreEnvVarFile st).2 !! ".gitignore" = Some content /\
     existsb ignoresEnvVarFile (split "010" content) = true /\
     (covered = true -> fs st !! ".gitignore" = Some content)) /\
  (forall path, path <> ".gitignore" ->
                fs (gitIgnoreEnvVarFile st).2 !! path = fs st !! path) /\
  env (gitIgnoreEnvVarFile st).2 = env st /\
  trace (gitIgnoreEnvVarFile st).2 = trace st.
Proof. exact (gitIgnoreEnvVarFile_effect st). Qed.

Lemma gitIgnoreEnvVarFile_covers_witness :
  (gitIgnoreEnvVarFile
     {| env := ∅;
        fs := {[ ".gitignore" := "node_modules" +:+ nl +:+ ".env*" +:+ nl;
                 "package.json" := "{}" ]};
        trace := [] |}).1 = Done false /\
  fs (gitIgnoreEnvVarFile
        {| env := ∅;
           fs := {[ ".gitignore" := "node_modules" +:+ nl +:+ ".env*" +:+ nl;
                    "package.json" := "{}" ]};
           trace := [] |}).2 !! "package.json" = Some "{}".
Proof.
  split.
  - exact (proj1 (gitIgnoreEnvVarFile_covers
                    {| env := ∅;
                       fs := {[ ".gitignore" := "node_modules" +:+ nl +:+ ".env*" +:+ nl;
                                "package.json" := "{}" ]};
                       trace := [] |})).
  - assert (Hpath : "package.json" <> ".gitignore") by discriminate.
    exact (proj1 (proj2 (proj2 (gitIgnoreEnvVarFile_covers
                    {| env := ∅;
                       fs := {[ ".gitignore" := "node_modules" +:+ nl +:+ ".env*" +:+ nl;
                                "package.json" := "{}" ]};
                       trace := [] |}))) "package.json" Hpath).
Defined.

(** X5: [gitIgnoreEnvVarFile] is idempotent: run a second time it
    returns [false] and changes nothing. *)
Theorem gitIgnoreEnvVarFile_idempotent (st : State) :
  gitIgnoreEnvVarFile (gitIgnoreEnvVarFile st).2 =
    (Done false, (gitIgnoreEnvVarFile st).2).
Proof.
  destruct (gitIgnoreEnvVarFile_effect st) as (_ & (content & Hfile & Hcov & _) & _).
  generalize dependent (gitIgnoreEnvVarFile st).2. intros st' Hfile.
  unfold gitIgnoreEnvVarFile, mbind, M_bind, get_fs.
  rewrite Hfile. change (default "" (Some content)) with content.
  rewrite changesToGitIgnore_existing, Hcov. reflexivity.
Qed.

(** X6: a missing [.gitignore] is read as the empty content, so the file
    is created with an empty first line before [.env.local]; the content
    [changesToGitIgnore] has for a missing file is never written. *)
Theorem gitIgnoreEnvVarFile_missing_file (st : State) :
  fs st !! ".gitignore" = None ->
  gitIgnoreEnvVarFile st =
    (Done true,
     {| env := env st;
        fs := <[".gitignore" := nl +:+ ".env.local" +:+ nl]> (fs st);
        trace := trace st |}) /\
  changesToGitIgnore None <> Some (nl +:+ ".env.local" +:+ nl).
Proof.
  intros Hfile. split; [|discriminate].
  unfold gitIgnoreEnvVarFile, mbind, M_bind, get_fs. rewrite Hfile. reflexivity.
Qed.

Lemma gitIgnoreEnvVarFile_missing_file_witness :
  gitIgnoreEnvVarFile (state_with ∅) =
    (Done true,
     {| env := ∅; fs := {[ ".gitignore" := nl +:+ ".env.local" +:+ nl ]};
        trace := [] |}).
Proof.
  exact (proj1 (gitIgnoreEnvVarFile_missing_file (state_with ∅) eq_refl)).
Defined.

Lemma writeDeploymentEnvVar_changed (w : World) (deploymentType : DeploymentType)
    (deployment : Deployment) (st : State) (changed : string) :
  changesToEnvVarFile w (fs st !! ".env.local") deploymentType deployment = Some changed ->
  writeDeploymentEnvVar w deploymentType deployment st =
    gitIgnoreEnvVarFile
      {| env := <["CONVEX_DEPLOYMENT" :=
                    DeploymentType_str deploymentType +:+ ":" +:+ deploymentName deployment]>
                  (env st);
         fs := <[".env.local" := changed]> (fs st);
         trace := trace st |}.
Proof.
  intros Hchanged.
  unfold writeDeploymentEnvVar, mbind, M_bind, get_fs, get_env, set_env, writeUtf8File.
  simpl. unfold ENV_VAR_FILE_PATH. rewrite Hchanged. reflexivity.
Qed.

(** X7: when a change of [.env.local] is computed, [writeDeploymentEnvVar]
    stores it, and afterwards [.gitignore] has a line that covers
    [.env.local]; the result tells whether [.gitignore] had to be
    written; no other file and no trace entry is touched. *)
Theorem writeDeploymentEnvVar_writes_files
    (w : World) (deploymentType : DeploymentType) (deployment : Deployment)
    (st : State) (changed : string) :
  changesToEnvVarFile w (fs st !! ".env.local") deploymentType deployment = Some changed ->
  fs (writeDeploymentEnvVar w deploymentType deployment st).2 !! ".env.local" =
    Some changed /\
  (exists content,
     fs (writeDeploymentEnvVar w deploymentType deployment st).2 !! ".gitignore" =
       Some content /\
     existsb ignoresEnvVarFile (split "010" content) = true) /\
  (writeDeploymentEnvVar w deploymentType deployment st).1 =
    Done (negb (existsb ignoresEnvVarFile
                  (split "010" (default "" (fs st !! ".gitignore"))))) /\
  (forall path, path <> ".env.local" -> path <> ".gitignore" ->
     fs (writeDeploymentEnvVar w deploymentType deployment st).2 !! path =
       fs st !! path) /\
  trace (writeDeploymentEnvVar w deploymentType deployment st).2 = trace st.
Proof.
  intros Hchanged.
  rewrite (writeDeploymentEnvVar_changed w deploymentType deployment st changed Hchanged).
  match goal with
  | |- context [gitIgnoreEnvVarFile ?s] =>
      destruct (gitIgnoreEnvVarFile_effect s)
        as (Hres & (content & Hfile & Hcov & _) & Hother & _ & Htrace)
  end.
  cbn [fs trace] in *.
  rewrite lookup_insert_ne in Hres by discriminate.
  split; [|split; [|split; [|split]]].
  - rewrite Hother by discriminate. apply lookup_insert_eq.
  - exists content. split; assumption.
  - exact Hres.
  - intros path Henv Hignore. rewrite Hother by exact Hignore.
    apply lookup_insert_ne. congruence.
  - exact Htrace.
Qed.

Lemma writeDeploymentEnvVar_writes_files_witness :
  fs (writeDeploymentEnvVar writing_world Dev
        {| team := "t"; project := "p"; deploymentName := "d1234" |}
        (state_with ∅)).2 !! ".env.local" = Some "CONVEX_DEPLOYMENT=dev:d1234".
Proof.
  exact (proj1 (writeDeploymentEnvVar_writes_files writing_world Dev
                  {| team := "t"; project := "p"; deploymentName := "d1234" |}
                  (state_with ∅) "CONVEX_DEPLOYMENT=dev:d1234" eq_refl)).
Defined.

(** X8: [eraseDeploymentEnvVar] never creates [.env.local], touches no
    other file, leaves the process environment as it is (also the
    [CONVEX_DEPLOYMENT] mirror) and logs nothing; it returns [true] only
    when the file was there and held the variable, and then the file holds
    the content with the variable's line cut out. *)
Theorem eraseDeploymentEnvVar_effect (d : Dotenv) (st : State) :
  env (eraseDeploymentEnvVar d st).2 = env st /\
  trace (eraseDeploymentEnvVar d st).2 = trace st /\
  (forall path, path <> ".env.local" ->
     fs (eraseDeploymentEnvVar d st).2 !! path = fs st !! path) /\
  (fs st !! ".env.local" = None ->
   eraseDeploymentEnvVar d st = (Done false, st)) /\
  (forall content, fs st !! ".env.local" = Some content ->
     dotenv_parse d content !! "CONVEX_DEPLOYMENT" = None ->
     eraseDeploymentEnvVar d st = (Done false, st)) /\
  ((eraseDeploymentEnvVar d st).1 = Done true ->
   exists content,
     fs st !! ".env.local" = Some content /\
     is_Some (dotenv_parse d content !! "CONVEX_DEPLOYMENT") /\
     fs (eraseDeploymentEnvVar d st).2 !! ".env.local" =
       Some (eraseEnvVar d content "CONVEX_DEPLOYMENT")).
Proof.
  unfold eraseDeploymentEnvVar, mbind, M_bind, get_fs, writeUtf8File.
  unfold ENV_VAR_FILE_PATH, CONVEX_DEPLOYMENT_VAR_NAME.
  destruct (fs st !! ".env.local") as [content|] eqn:Hfile.
  - destruct (dotenv_parse d content !! "CONVEX_DEPLOYMENT") as [existing|] eqn:Hvar;
      cbn [fst snd env fs trace mret M_ret].
    + repeat split; try discriminate.
      * intros path Hpath. apply lookup_insert_ne. congruence.
      * intros content' [= <-]. rewrite Hvar. discriminate.
      * intros _. exists content. rewrite Hvar.
        repeat split; [eexists; reflexivity|apply lookup_insert_eq].
    + repeat split; try discriminate.
  - cbn [fst snd env fs trace mret M_ret]. repeat split; discriminate.
Qed.

Lemma eraseDeploymentEnvVar_effect_witness :
  eraseDeploymentEnvVar sample_dotenv (state_with ∅) = (Done false, state_with ∅) /\
  fs (eraseDeploymentEnvVar sample_dotenv
        {| env := ∅; fs := {[ ".env.local" := "CONVEX_DEPLOYMENT=dev:d1234" ]};
           trace := [] |}).2 !! ".env.local" = Some "".
Proof.
  split.
  - exact (proj1 (proj2 (proj2 (proj2 (eraseDeploymentEnvVar_effect sample_dotenv
                                          (state_with ∅))))) eq_refl).
  - assert (Hres : (eraseDeploymentEnvVar sample_dotenv
                      {| env := ∅;
                         fs := {[ ".env.local" := "CONVEX_DEPLOYMENT=dev:d1234" ]};
                         trace := [] |}).1 = Done true) by reflexivity.
    destruct (proj2 (proj2 (proj2 (proj2 (proj2
                (eraseDeploymentEnvVar_effect sample_dotenv
                   {| env := ∅;
                      fs := {[ ".env.local" := "CONVEX_DEPLOYMENT=dev:d1234" ]};
                      trace := [] |}))))) Hres)
      as (content & Hfile & _ & Herased).
    injection Hfile as <-. exact Herased.
Defined.

(** What [readDeploymentEnvVar] returns when the deploy key gives no name. *)
Lemma readDeploymentEnvVar_run (d : Dotenv) (st : State) :
  readDeploymentEnvVar d st =
    (Done
       match
         match loadedEnv d (fs st) (env st) !! "CONVEX_DEPLOY_KEY" with
         | Some key => deploymentNameFromAdminKey key
         | None => None
         end
       with
       | Some name => Some name
       | None =>
           match loadedEnv d (fs st) (env st) !! "CONVEX_DEPLOYMENT" with
           | Some raw => if String.eqb raw "" then None else Some (after_last ":" raw)
           | None => None
           end
       end,
     {| env := loadedEnv d (fs st) (env st); fs := fs st; trace := trace st |}).
Proof.
  unfold readDeploymentEnvVar, mbind, M_bind, get_fs, get_env, set_env.
  cbn [fst snd env fs trace]. fold (loadedEnv d (fs st) (env st)).
  unfold CONVEX_DEPLOY_KEY_ENV_VAR_NAME, CONVEX_DEPLOYMENT_VAR_NAME.
  destruct (loadedEnv d (fs st) (env st) !! "CONVEX_DEPLOY_KEY") as [key|];
    cbn [optional coalesce].
  - destruct key as [|a key]; cbn [truthy_string].
    + change (deploymentNameFromAdminKey "") with (@None string).
      destruct (loadedEnv d (fs st) (env st) !! "CONVEX_DEPLOYMENT") as [raw|];
        cbn [optional coalesce]; [|reflexivity].
      rewrite stripDeploymentTypePrefix_after_last.
      destruct (String.eqb raw ""); reflexivity.
    + destruct (deploymentNameFromAdminKey (String a key)); [reflexivity|].
      destruct (loadedEnv d (fs st) (env st) !! "CONVEX_DEPLOYMENT") as [raw|];
        cbn [optional coalesce]; [|reflexivity].
      rewrite stripDeploymentTypePrefix_after_last.
      destruct (String.eqb raw ""); reflexivity.
  - destruct (loadedEnv d (fs st) (env st) !! "CONVEX_DEPLOYMENT") as [raw|];
      cbn [optional coalesce]; [|reflexivity].
    rewrite stripDeploymentTypePrefix_after_last.
    destruct (String.eqb raw ""); reflexivity.
Qed.

(** X9: [readDeploymentEnvVar] prefers the name held by the deploy key,
    whatever [CONVEX_DEPLOYMENT] says; a deploy key that holds no name,
    because its type is not ["prod"] or because it has no bar, counts as
    no deploy key; without a name from the key the result is the part of
    [CONVEX_DEPLOYMENT] after its last colon, and [null] when the variable
    is unset or empty. *)
Theorem readDeploymentEnvVar_precedence (d : Dotenv) (st : State) :
  let e := loadedEnv d (fs st) (env st) in
  let fallback :=
    match e !! "CONVEX_DEPLOYMENT" with
    | Some raw => if String.eqb raw "" then None else Some (after_last ":" raw)
    | None => None
    end in
  (forall key name,
     e !! "CONVEX_DEPLOY_KEY" = Some key ->
     deploymentNameFromAdminKey key = Some name ->
     (readDeploymentEnvVar d st).1 = Done (Some name)) /\
  (forall key,
     e !! "CONVEX_DEPLOY_KEY" = Some key ->
     deploymentTypeFromAdminKey key <> "prod" \/ contains "|" key = false ->
     (readDeploymentEnvVar d st).1 = Done fallback) /\
  (forall key,
     e !! "CONVEX_DEPLOY_KEY" = Some key ->
     deploymentNameFromAdminKey key = None ->
     (readDeploymentEnvVar d st).1 = Done fallback) /\
  (e !! "CONVEX_DEPLOY_KEY" = None ->
   (readDeploymentEnvVar d st).1 = Done fallback) /\
  (e !! "CONVEX_DEPLOYMENT" = None \/ e !! "CONVEX_DEPLOYMENT" = Some "" ->
   fallback = None).
Proof.
  intros e fallback. rewrite readDeploymentEnvVar_run. fold e. cbn [fst].
  split; [|split; [|split; [|split]]].
  - intros key name -> ->. reflexivity.
  - intros key -> Hkey. rewrite deploymentNameFromAdminKey_cases.
    destruct Hkey as [Htype | ->]; [|reflexivity].
    destruct (negb (contains "|" key)); [reflexivity|].
    destruct (String.eqb_spec (deploymentTypeFromAdminKey key) "prod");
      [contradiction|reflexivity].
  - intros key -> ->. reflexivity.
  - intros ->. reflexivity.
  - unfold fallback. intros [-> | ->]; reflexivity.
Qed.

Lemma readDeploymentEnvVar_precedence_witness :
  (readDeploymentEnvVar no_dotenv
     (state_with {[ "CONVEX_DEPLOY_KEY" := "prod:happy-otter-123|secret";
                    "CONVEX_DEPLOYMENT" := "dev:tall-forest-1234" ]})).1 =
    Done (Some "happy-otter-123") /\
  (readDeploymentEnvVar no_dotenv
     (state_with {[ "CONVEX_DEPLOY_KEY" := "preview:team:proj|secret";
                    "CONVEX_DEPLOYMENT" := "dev:tall-forest-1234" ]})).1 =
    Done (Some "tall-forest-1234") /\
  (readDeploymentEnvVar no_dotenv
     (state_with {[ "CONVEX_DEPLOY_KEY" := "prod:legacykey";
                    "CONVEX_DEPLOYMENT" := "dev:tall-forest-1234" ]})).1 =
    Done (Some "tall-forest-1234") /\
  (readDeploymentEnvVar no_dotenv
     (state_with {[ "CONVEX_DEPLOY_KEY" := "prod:legacykey";
                    "CONVEX_DEPLOYMENT" := "tall-forest-1234" ]})).1 =
    Done (Some "tall-forest-1234") /\
  (readDeploymentEnvVar no_dotenv
     (state_with {[ "CONVEX_DEPLOYMENT" := "" ]})).1 = Done None.
Proof.
  assert (Hpreview : deploymentTypeFromAdminKey "preview:team:proj|secret" <> "prod")
    by (intros H; cbv in H; discriminate H).
  split; [|split; [|split; [|split]]].
  - exact (proj1 (readDeploymentEnvVar_precedence no_dotenv
                    (state_with {[ "CONVEX_DEPLOY_KEY" := "prod:happy-otter-123|secret";
                                   "CONVEX_DEPLOYMENT" := "dev:tall-forest-1234" ]}))
             "prod:happy-otter-123|secret" "happy-otter-123" eq_refl eq_refl).
  - exact (proj1 (proj2 (readDeploymentEnvVar_precedence no_dotenv
                           (state_with {[ "CONVEX_DEPLOY_KEY" := "preview:team:proj|secret";
                                          "CONVEX_DEPLOYMENT" := "dev:tall-forest-1234" ]})))
             "preview:team:proj|secret" eq_refl (or_introl Hpreview)).
  - exact (proj1 (proj2 (readDeploymentEnvVar_precedence no_dotenv
                           (state_with {[ "CONVEX_DEPLOY_KEY" := "prod:legacykey";
                                          "CONVEX_DEPLOYMENT" := "dev:tall-forest-1234" ]})))
             "prod:legacykey" eq_refl (or_intror eq_refl)).
  - exact (proj1 (proj2 (proj2 (readDeploymentEnvVar_precedence no_dotenv
                           (state_with {[ "CONVEX_DEPLOY_KEY" := "prod:legacykey";
                                          "CONVEX_DEPLOYMENT" := "tall-forest-1234" ]}))))
             "prod:legacykey" eq_refl eq_refl).
  - exact (eq_trans
             (proj1 (proj2 (proj2 (proj2 (readDeploymentEnvVar_precedence no_dotenv
                                     (state_with {[ "CONVEX_DEPLOYMENT" := "" ]})))))
                eq_refl)
             (f_equal Done
                (proj2 (proj2 (proj2 (proj2 (readDeploymentEnvVar_precedence no_dotenv
                                        (state_with {[ "CONVEX_DEPLOYMENT" := "" ]})))))
                   (or_intror eq_refl)))).
Defined.

Lemma writeDeploymentEnvVar_env (w : World) (deploymentType : DeploymentType)
    (deployment : Deployment) (st : State) :
  env (writeDeploymentEnvVar w deploymentType deployment st).2 =
    <["CONVEX_DEPLOYMENT" :=
        DeploymentType_str deploymentType +:+ ":" +:+ deploymentName deployment]> (env st).
Proof.
  destruct (changesToEnvVarFile w (fs st !! ".env.local") deploymentType deployment)
    as [changed|] eqn:Hchanged.
  - rewrite (writeDeploymentEnvVar_changed w deploymentType deployment st changed Hchanged).
    apply gitIgnoreEnvVarFile_env.
  - unfold writeDeploymentEnvVar, mbind, M_bind, get_fs, get_env, set_env. simpl.
    unfold ENV_VAR_FILE_PATH. rewrite Hchanged. reflexivity.
Qed.

Lemma eraseDeploymentEnvVar_env (d : Dotenv) (st : State) :
  env (eraseDeploymentEnvVar d st).2 = env st.
Proof.
  unfold eraseDeploymentEnvVar, mbind, M_bind, get_fs, writeUtf8File.
  destruct (fs st !! ENV_VAR_FILE_PATH) as [content|]; [|reflexivity].
  destruct (dotenv_parse d content !! CONVEX_DEPLOYMENT_VAR_NAME); reflexivity.
Qed.

(** [file_dotenv] keeps the variables that are set. *)
Lemma file_dotenv_keeps (path : option string) (files e : gmap string string)
    (name value : string) :
  e !! name = Some value -> dotenv_config file_dotenv path files e !! name = Some value.
Proof.
  intros Hset. unfold file_dotenv, dotenv_config.
  destruct path as [path|]; [exact Hset|].
  destruct (files !! ".env") as [content|]; [|exact Hset].
  destruct (e !! "CONVEX_DEPLOY_KEY") as [key|] eqn:Hkey; [exact Hset|].
  rewrite lookup_insert_ne; [exact Hset|]. intros <-. congruence.
Qed.

(** X10: what [writeDeploymentEnvVar] sets is what [readDeploymentEnvVar]
    reads back in the same process: for a deployment name without a colon
    and a dotenv that keeps the variables already set, the read returns
    the name written whenever the environment it has loaded holds no
    deploy key, also after [eraseDeploymentEnvVar] has cut the variable
    out of the file. *)
Theorem write_then_read_deployment
    (w : World) (d : Dotenv) (deploymentType : DeploymentType)
    (deployment : Deployment) (st : State) :
  contains ":" (deploymentName deployment) = false ->
  (forall path files (e : gmap string string) name value,
     e !! name = Some value -> dotenv_config d path files e !! name = Some value) ->
  let written := (writeDeploymentEnvVar w deploymentType deployment st).2 in
  let erased := (eraseDeploymentEnvVar d written).2 in
  (loadedEnv d (fs written) (env written) !! "CONVEX_DEPLOY_KEY" = None ->
   (readDeploymentEnvVar d written).1 = Done (Some (deploymentName deployment))) /\
  (loadedEnv d (fs erased) (env erased) !! "CONVEX_DEPLOY_KEY" = None ->
   (readDeploymentEnvVar d erased).1 = Done (Some (deploymentName deployment))).
Proof.
  intros Hcolon Hkeep written erased.
  assert (Hread : forall st',
             env st' = <["CONVEX_DEPLOYMENT" :=
                           DeploymentType_str deploymentType +:+ ":" +:+
                           deploymentName deployment]> (env st) ->
             loadedEnv d (fs st') (env st') !! "CONVEX_DEPLOY_KEY" = None ->
             (readDeploymentEnvVar d st').1 = Done (Some (deploymentName deployment))).
  { intros st' Henv Hnokey. rewrite readDeploymentEnvVar_run. cbn [fst].
    rewrite Hnokey. unfold loadedEnv.
    rewrite (Hkeep None _ _ "CONVEX_DEPLOYMENT"
               (DeploymentType_str deploymentType +:+ ":" +:+ deploymentName deployment))
      by (apply Hkeep; rewrite Henv; apply lookup_insert_eq).
    destruct deploymentType; simpl String.eqb; cbv iota; f_equal; f_equal.
    - apply (after_last_app ":" "dev"), Hcolon.
    - apply (after_last_app ":" "prod"), Hcolon. }
  split; apply Hread.
  - apply writeDeploymentEnvVar_env.
  - unfold erased. rewrite eraseDeploymentEnvVar_env. apply writeDeploymentEnvVar_env.
Qed.

Lemma write_then_read_deployment_witness :
  (readDeploymentEnvVar file_dotenv
     (writeDeploymentEnvVar writing_world Dev
        {| team := "t"; project := "p"; deploymentName := "d1234" |}
        (state_with ∅)).2).1 = Done (Some "d1234") /\
  (readDeploymentEnvVar file_dotenv
     (eraseDeploymentEnvVar file_dotenv
        (writeDeploymentEnvVar writing_world Dev
           {| team := "t"; project := "p"; deploymentName := "d1234" |}
           (state_with ∅)).2).2).1 = Done (Some "d1234").
Proof.
  pose proof (write_then_read_deployment writing_world file_dotenv Dev
                {| team := "t"; project := "p"; deploymentName := "d1234" |}
                (state_with ∅) eq_refl file_dotenv_keeps) as [Hwritten Herased].
  split; [apply Hwritten|apply Herased]; reflexivity.
Defined.

(** ** More on the command *)

Section Keeps.

Lemma keeps_ret {A} (a : A) : keeps (mret a : M A).
Proof. intros st. split; reflexivity. Qed.

Lemma keeps_crash {A} (code : Z) : keeps (crash code : M A).
Proof. intros st. split; reflexivity. Qed.

Lemma keeps_ask {A} (r : Res A) : keeps (ask r).
Proof. intros st. split; reflexivity. Qed.

Lemma keeps_get_env : keeps get_env.
Proof. intros st. split; reflexivity. Qed.

Lemma keeps_emit (e : Event) : keeps (emit e).
Proof. intros st. split; reflexivity. Qed.

Lemma keeps_call {A} (e : Event) (r : Res A) : keeps (call e r).
Proof. intros st. split; reflexivity. Qed.

Lemma keeps_bind {A B} (m : M A) (f : A -> M B) :
  keeps m -> (forall a, keeps (f a)) -> keeps (m ≫= f).
Proof.
  intros Hm Hf st. unfold mbind, M_bind.
  destruct (Hm st) as [Henv Hfs].
  destruct (m st) as [[a|code] st1]; simpl in *.
  - destruct (Hf a st1) as [Henv' Hfs']. split; congruence.
  - split; assumption.
Qed.

End Keeps.

Ltac keeps_step :=
  lazymatch goal with
  | |- keeps (mbind _ _) => apply keeps_bind; [|intros ?]
  | |- keeps (mret _) => apply keeps_ret
  | |- keeps (crash _) => apply keeps_crash
  | |- keeps (ask _) => apply keeps_ask
  | |- keeps get_env => apply keeps_get_env
  | |- keeps (emit _) => apply keeps_emit
  | |- keeps (call _ _) => apply keeps_call
  | |- keeps (match ?x with _ => _ end) => destruct x
  end.

Ltac keeps_auto :=
  unfold logError, logFailure, logFinishedStep, logMessage, logOutput, showSpinner;
  repeat keeps_step.

Lemma runCommand_keeps (w : World) (options : RunCommandOptions) :
  keeps (runCommand w options).
Proof. unfold runCommand. keeps_auto. Qed.

Lemma handlePreview_keeps (w : World) (key : string) (options : CmdOptions) :
  keeps (handlePreview w key options).
Proof.
  unfold handlePreview, deploymentNameFromAdminKeyOrCrash.
  keeps_auto; apply runCommand_keeps.
Qed.

Lemma handleProduction_keeps (w : World) (options : CmdOptions) :
  keeps (handleProduction w options).
Proof.
  unfold handleProduction, askToConfirmPush, deploymentNameFromAdminKeyOrCrash.
  keeps_auto; apply runCommand_keeps.
Qed.

(** X11: [runCommand] puts the URL into a copy of the environment for the
    command: the process environment itself is never changed; and
    without [--cmd] it does nothing at all. *)
Theorem runCommand_leaves_state (w : World) (options : RunCommandOptions) (st : State) :
  env (runCommand w options st).2 = env st /\
  (rc_cmd options = None -> runCommand w options st = (Done tt, st)).
Proof.
  destruct (runCommand_keeps w options st) as [Henv _].
  split; [exact Henv|].
  intros Hcmd. unfold runCommand. rewrite Hcmd. reflexivity.
Qed.

Lemma runCommand_leaves_state_witness :
  runCommand sample_world
    {| rc_cmdUrlEnvVarName := None; rc_cmd := None; rc_dryRun := None;
       rc_url := "https://happy-otter-123.convex.cloud" |} (state_with ∅) =
    (Done tt, state_with ∅).
Proof.
  exact (proj2 (runCommand_leaves_state sample_world
                  {| rc_cmdUrlEnvVarName := None; rc_cmd := None;
                     rc_dryRun := None;
                     rc_url := "https://happy-otter-123.convex.cloud" |}
                  (state_with ∅)) eq_refl).
Defined.




Lemma set_env_then_keeps {A} (e : gmap string string) (k : unit -> M A) (st : State) :
  (forall u, keeps (k u)) ->
  env ((set_env e ≫= k) st).2 = e /\ fs ((set_env e ≫= k) st).2 = fs st.
Proof.
  intros Hk. unfold mbind, M_bind, set_env.
  destruct (Hk tt {| env := e; fs := fs st; trace := trace st |}) as [Henv Hfs].
  split; assumption.
Qed.

(** X13: the code of the deploy action, of the production flow and of the
    preview flow writes no file of its own, so [.env.local] and
    [.gitignore] are not edited by a deploy, and its only change to the
    process environment is the registration of the admin key that came
    by flag; what the collaborators do inside is theirs. *)
Theorem deploy_leaves_files (w : World) (cmdOptions : CmdOptions) (st : State) :
  fs (deploy w cmdOptions st).2 = fs st /\
  env (deploy w cmdOptions st).2 =
    storeAdminKeyEnvVar w (adminKey cmdOptions) (env st).
Proof.
  unfold deploy. unfold mbind at 1. unfold M_bind at 1. unfold get_env at 1.
  cbv beta iota.
  match goal with
  | |- context [(set_env ?e ≫= ?k) st] =>
      destruct (set_env_then_keeps e k st) as [Henv Hfs]; [|split; assumption]
  end.
  intros _. unfold keyHasType, deploymentNameFromAdminKeyOrCrash.
  keeps_auto;
    first [apply handlePreview_keeps | apply handleProduction_keeps].
Qed.

(** X14: when neither [--preview-create] nor the branch of the build
    environment gives a preview name, the preview flow ends with exit code
    1 right after the error message, in a dry run too: nothing is
    claimed, spawned or pushed. *)
Theorem handlePreview_without_name
    (w : World) (configuredDeployKey : string) (options : CmdOptions) (st : State) :
  previewCreate options = None ->
  gitBranchFromEnvironment w (env st) = None ->
  handlePreview w configuredDeployKey options st =
    (Crashed 1,
     {| env := env st; fs := fs st;
        trace := trace st ++
          [LogError "`npx convex deploy` to a preview deployment could not determine the preview name. Provide one using `--preview-create`"] |}).
Proof.
  intros Hcreate Hbranch.
  unfold handlePreview, mbind, M_bind, get_env. rewrite Hcreate, Hbranch.
  reflexivity.
Qed.

Lemma handlePreview_without_name_witness :
  handlePreview sample_world "preview:team:proj|secret" defaults (state_with ∅) =
    (Crashed 1,
     {| env := ∅; fs := ∅;
        trace :=
          [LogError "`npx convex deploy` to a preview deployment could not determine the preview name. Provide one using `--preview-create`"] |}).
Proof.
  exact (handlePreview_without_name sample_world "preview:team:proj|secret" defaults
           (state_with ∅) eq_refl eq_refl).
Defined.

Lemma runCommand_emits (P : Event -> bool) (w : World) (options : RunCommandOptions) :
  (forall e, is_narration e || is_spawn e = true -> P e = true) ->
  emits P (runCommand w options).
Proof.
  intros HP. apply (emits_weaken (fun e => is_narration e || is_spawn e)); [exact HP|].
  unfold runCommand. emits_auto.
Qed.

Lemma handleProduction_emits_no_preview (w : World) (options : CmdOptions) :
  emits (fun e => negb (is_claim e) && negb (is_function_run e))
    (handleProduction w options).
Proof.
  unfold handleProduction, askToConfirmPush, deploymentNameFromAdminKeyOrCrash.
  emits_auto; apply runCommand_emits; intros []; (discriminate || reflexivity).
Qed.

Lemma emits_at_bind (P : Event -> bool) {A B} (m : M A) (f : A -> M B) (st : State) :
  emits_at P m st ->
  (forall a st', m st = (Done a, st') -> emits_at P (f a) st') ->
  emits_at P (m ≫= f) st.
Proof.
  intros (new1 & Htr1 & Hall1) Hf. unfold emits_at, mbind, M_bind.
  destruct (m st) as [[a|code] st1]; simpl in *.
  - destruct (Hf a st1 eq_refl) as (new2 & Htr2 & Hall2).
    exists (new1 ++ new2). split.
    + rewrite Htr2, Htr1, app_assoc. reflexivity.
    + rewrite forallb_app, Hall1, Hall2. reflexivity.
  - exists new1. split; assumption.
Qed.

(** X15: unless the configured deploy key has the type ["preview"], the
    command never calls the claim API and never runs a function after the
    push: [--preview-create], [--preview-name] and [--preview-run] are
    ignored. *)
Theorem deploy_production_ignores_preview_flags
    (w : World) (cmdOptions : CmdOptions) (st : State) :
  keyHasType
    (coalesce (optional (readAdminKeyFromEnvVar w
                           (storeAdminKeyEnvVar w (adminKey cmdOptions) (env st))))
       None) "preview" = false ->
  exists new,
    trace (deploy w cmdOptions st).2 = trace st ++ new /\
    forallb (fun e => negb (is_claim e) && negb (is_function_run e)) new = true.
Proof.
  intros Hkey. change (emits_at (fun e => negb (is_claim e) && negb (is_function_run e))
                         (deploy w cmdOptions) st).
  unfold deploy.
  apply emits_at_bind; [apply emits_get_env|]. intros e st1 [= <- <-].
  apply emits_at_bind; [apply emits_set_env|]. intros [] st2 [= <-].
  apply emits_at_bind; [apply emits_get_env|]. intros e st3 [= <- <-].
  cbn [env].
  match goal with |- emits_at _ ?k _ => cut (emits (fun e => negb (is_claim e) && negb (is_function_run e)) k) end.
  { intros Hk. apply Hk. }
  unfold keyHasType in Hkey.
  destruct (coalesce _ None) as [key|].
  - rewrite Hkey. emits_auto; apply handleProduction_emits_no_preview.
  - emits_auto; apply handleProduction_emits_no_preview.
Qed.

Lemma deploy_production_ignores_preview_flags_witness :
  exists new,
    trace (deploy sample_world (command_options None None)
             (state_with {[ "CONVEX_DEPLOY_KEY" := "prod:happy-otter-123|secret" ]})).2 =
      [] ++ new /\
    forallb (fun e => negb (is_claim e) && negb (is_function_run e)) new = true.
Proof.
  exact (deploy_production_ignores_preview_flags sample_world (command_options None None)
           (state_with {[ "CONVEX_DEPLOY_KEY" := "prod:happy-otter-123|secret" ]})
           eq_refl).
Defined.

Lemma handlePreview_with_build_environment (w : World)
    (detect : gmap string string -> bool) (key : string) (options : CmdOptions) :
  handlePreview (with_build_environment w detect) key options =
    handlePreview w key options.
Proof. reflexivity. Qed.

Lemma handleProduction_with_build_environment (w : World)
    (detect : gmap string string -> bool) (options : CmdOptions) :
  handleProduction (with_build_environment w detect) options =
    handleProduction w options.
Proof. reflexivity. Qed.

(** X16: the detection of the build environment decides nothing when the
    check is disabled, and nothing when the configured deploy key is
    missing or not of type ["prod"]: the command runs the same with any
    other detection. *)
Theorem deploy_build_environment_only_for_prod
    (w : World) (detect : gmap string string -> bool)
    (cmdOptions : CmdOptions) (st : State) :
  checkBuildEnvironment cmdOptions = Disable \/
  keyHasType
    (coalesce (optional (readAdminKeyFromEnvVar w
                           (storeAdminKeyEnvVar w (adminKey cmdOptions) (env st))))
       None) "prod" = false ->
  deploy (with_build_environment w detect) cmdOptions st = deploy w cmdOptions st.
Proof.
  intros Hcase. unfold deploy.
  rewrite handleProduction_with_build_environment.
  unfold mbind, M_bind, get_env, set_env.
  cbn [env fs trace with_build_environment storeAdminKeyEnvVar readAdminKeyFromEnvVar
       isNonProdBuildEnvironment getConfiguredDeployment usageStateWarning].
  assert (Hguard : forall b : bool,
             Toggle_eqb (checkBuildEnvironment cmdOptions) Enable && b &&
             keyHasType
               (coalesce (optional (readAdminKeyFromEnvVar w
                  (storeAdminKeyEnvVar w (adminKey cmdOptions) (env st)))) None) "prod" =
             false).
  { intros b. destruct Hcase as [-> | ->]; [reflexivity|apply andb_false_r]. }
  rewrite !Hguard. reflexivity.
Qed.

Lemma deploy_build_environment_only_for_prod_witness :
  deploy (with_build_environment sample_world (fun _ => true)) defaults
    (state_with {[ "CONVEX_DEPLOY_KEY" := "preview:team:proj|secret" ]}) =
  deploy sample_world defaults
    (state_with {[ "CONVEX_DEPLOY_KEY" := "preview:team:proj|secret" ]}).
Proof.
  exact (deploy_build_environment_only_for_prod sample_world (fun _ => true) defaults
           (state_with {[ "CONVEX_DEPLOY_KEY" := "preview:team:proj|secret" ]})
           (or_intror eq_refl)).
Defined.

Lemma confirmPush_yes (w : World) (options : CmdOptions) (credentials : Credentials)
    (st : State) :
  yes options = Some true ->
  confirmPush w options credentials st = (Done tt, st).
Proof.
  intros Hyes. unfold confirmPush, mbind, M_bind. rewrite Hyes.
  destruct (cr_deploymentNames credentials) as [[[configuredName|] selectedName]|];
    try reflexivity.
  destruct (String.eqb selectedName configuredName); reflexivity.
Qed.

(** X17: a dry run of the production flow spawns no command, and every
    push it makes carries the dry-run flag; unlike the preview flow it
    still fetches the credentials and, with [--yes], calls the push. *)
Theorem handleProduction_dry_run (w : World) (options : CmdOptions) (st : State) :
  truthy (dryRun options) = true ->
  (exists new,
     trace (handleProduction w options st).2 = trace st ++ new /\
     forallb (fun e => negb (is_spawn e) &&
                       match e with RunPush o => po_dryRun o | _ => true end) new = true) /\
  (forall credentials,
     fetchDeploymentCredentialsWithinCurrentProject w
       (deploymentSelectionFromOptions w options) = Done credentials ->
     yes options = Some true ->
     cmd options = None \/ (exists urlVar, urlVarFor w options = Done urlVar) ->
     In (RunPush (prodPushOptions options credentials))
        (trace (handleProduction w options st).2) /\
     po_dryRun (prodPushOptions options credentials) = true).
Proof.
  intros Hdry. split.
  - assert (Hall : emits (fun e => negb (is_spawn e) &&
                                   match e with RunPush o => po_dryRun o | _ => true end)
                     (handleProduction w options)).
    { unfold handleProduction, askToConfirmPush, deploymentNameFromAdminKeyOrCrash.
      rewrite Hdry.
      emits_auto;
        (eapply emits_weaken; [|apply runCommand_dry_run_emits; exact Hdry]);
        intros [] He; (discriminate He || reflexivity). }
    apply Hall.
  - intros credentials Hfetch Hyes Hvar. split; [|exact Hdry].
    rewrite handleProduction_parts. unfold mbind at 1. unfold M_bind, call.
    rewrite Hfetch. unfold mbind at 1. unfold M_bind.
    rewrite confirmPush_yes by exact Hyes.
    match goal with
    | |- In _ (trace (pushToProd _ _ _ ?s).2) => set (fetched := s)
    end.
    assert (Hrun : exists st', runCommand w (prodRunCommandOptions options credentials)
                                 fetched = (Done tt, st')).
    { destruct (cmd options) as [command|] eqn:Hcmd.
      - destruct Hvar as [Hnone|[urlVar Hv]]; [discriminate|].
        eexists. eapply runCommand_dry_run; [exact Hcmd|exact Hdry|exact Hv].
      - exists fetched. unfold runCommand. cbn [prodRunCommandOptions rc_cmd].
        rewrite Hcmd. reflexivity. }
    destruct Hrun as [st' Hrun]. eapply pushToProd_pushes. exact Hrun.
Qed.

Lemma handleProduction_dry_run_witness :
  In (RunPush (prodPushOptions (command_options (Some "vite build") (Some true))
                 (prod_credentials (Some "tall-forest-1234"))))
     (trace (handleProduction sample_world
               (command_options (Some "vite build") (Some true)) (state_with ∅)).2) /\
  po_dryRun (prodPushOptions (command_options (Some "vite build") (Some true))
               (prod_credentials (Some "tall-forest-1234"))) = true.
Proof.
  exact (proj2 (handleProduction_dry_run sample_world
                  (command_options (Some "vite build") (Some true)) (state_with ∅)
                  eq_refl)
           (prod_credentials (Some "tall-forest-1234")) eq_refl eq_refl
           (or_intror (ex_intro _ "VITE_CONVEX_URL" eq_refl))).
Defined.

Lemma confirmPush_without_names (w : World) (options : CmdOptions)
    (credentials : Credentials) (st : State) :
  cr_deploymentNames credentials = None \/
  (exists selectedName,
     cr_deploymentNames credentials =
       Some {| configured := None; selected := selectedName |}) ->
  confirmPush w options credentials st = (Done tt, st).
Proof.
  intros [Hnames|[selectedName Hnames]]; unfold confirmPush; rewrite Hnames;
    reflexivity.
Qed.

(** X18: when the credentials come without deployment names, or without
    a configured one, the production flow asks nobody, with or without
    [--yes], and goes on to the command and the push. *)
Theorem handleProduction_without_names
    (w : World) (options : CmdOptions) (st : State) (credentials : Credentials) :
  fetchDeploymentCredentialsWithinCurrentProject w
    (deploymentSelectionFromOptions w options) = Done credentials ->
  cr_deploymentNames credentials = None \/
  (exists selectedName,
     cr_deploymentNames credentials =
       Some {| configured := None; selected := selectedName |}) ->
  handleProduction w options st =
    pushToProd w options credentials
      {| env := env st; fs := fs st;
         trace := trace st ++ [FetchDeploymentCredentials] |} /\
  exists new,
    trace (handleProduction w options st).2 = trace st ++ new /\
    forallb (fun e => negb (is_prompt e)) new = true.
Proof.
  intros Hfetch Hnames.
  assert (Hgo : handleProduction w options st =
                  pushToProd w options credentials
                    {| env := env st; fs := fs st;
                       trace := trace st ++ [FetchDeploymentCredentials] |}).
  { rewrite handleProduction_parts. unfold mbind at 1. unfold M_bind, call.
    rewrite Hfetch. unfold mbind at 1. unfold M_bind.
    rewrite confirmPush_without_names by exact Hnames. reflexivity. }
  split; [exact Hgo|]. rewrite Hgo.
  match goal with
  | |- context [pushToProd _ _ _ ?s] =>
      destruct (pushToProd_emits w options credentials s) as (new & Htr & Hall)
  end.
  exists (FetchDeploymentCredentials :: new). split.
  - rewrite Htr. cbn [trace]. rewrite <- app_assoc. reflexivity.
  - exact Hall.
Qed.

Lemma handleProduction_without_names_witness :
  exists new,
    trace (handleProduction (world_with (Done (prod_credentials None)) false)
             defaults (state_with ∅)).2 = [] ++ new /\
    forallb (fun e => negb (is_prompt e)) new = true.
Proof.
  exact (proj2 (handleProduction_without_names
                  (world_with (Done (prod_credentials None)) false) defaults
                  (state_with ∅) (prod_credentials None) eq_refl
                  (or_intror (ex_intro _ "happy-otter-123" eq_refl)))).
Defined.

Ltac step_bind := unfold mbind at 1; unfold M_bind at 1; cbv beta iota.

(** X19: outside a dry run the preview flow calls the claim API once,
    before anything else, with the method [POST], the path
    [claim_preview_deployment] and as identifier the name of
    [--preview-create] when it is given, the branch of the build
    environment otherwise. *)
Theorem handlePreview_claims_once
    (w : World) (configuredDeployKey : string) (options : CmdOptions) (st : State)
    (name : string) (configuredDeployment : option string)
    (selection : ProjectSelection w) :
  truthy (dryRun options) = false ->
  previewCreate options = Some name \/
  (previewCreate options = None /\ gitBranchFromEnvironment w (env st) = Some name) ->
  getConfiguredDeployment w (env st) = Done configuredDeployment ->
  projectSelection w configuredDeployment configuredDeployKey = Done selection ->
  exists rest,
    trace (handlePreview w configuredDeployKey options st).2 =
      trace st ++ BigBrainAPI "POST" "claim_preview_deployment" name :: rest /\
    forallb (fun e => negb (is_claim e)) rest = true.
Proof.
  intros Hdry Hname Hconf Hsel.
  assert (Hcoalesce : coalesce (optional (previewCreate options))
                        (gitBranchFromEnvironment w (env st)) = Some name).
  { destruct Hname as [-> | [-> ->]]; reflexivity. }
  unfold handlePreview.
  step_bind. unfold get_env at 1. cbv beta iota. rewrite Hcoalesce.
  step_bind. unfold mret at 1. unfold M_ret at 1. cbv beta iota. rewrite Hdry.
  step_bind. unfold get_env at 1. cbv beta iota.
  step_bind. unfold ask at 1. rewrite Hconf.
  step_bind. unfold ask at 1. rewrite Hsel.
  step_bind. unfold call at 1.
  destruct (bigBrainAPI w "POST" "claim_preview_deployment" selection name)
    as [data|code].
  - match goal with
    | |- context [?k {| env := env st; fs := fs st; trace := ?t |}] =>
        assert (Hk : emits (fun e => negb (is_claim e)) k)
    end.
    { unfold deploymentNameFromAdminKeyOrCrash.
      apply emits_bind; [|intros _; emits_auto].
      apply runCommand_emits. intros []; (discriminate || reflexivity). }
    match goal with
    | |- context [?k ?s] =>
        lazymatch s with
        | {| env := _; fs := _; trace := _ |} =>
            destruct (Hk s) as (rest & Htr & Hall)
        end
    end.
    exists rest. rewrite Htr. cbn [trace]. rewrite <- app_assoc. split; [reflexivity|exact Hall].
  - exists []. cbn [snd trace]. split; reflexivity.
Qed.

Lemma handlePreview_claims_once_witness :
  exists rest,
    trace (handlePreview sample_world "preview:team:proj|secret"
             (preview_options None)
             (state_with {[ "VERCEL_GIT_COMMIT_REF" := "main" ]})).2 =
      [] ++ BigBrainAPI "POST" "claim_preview_deployment" "feature" :: rest /\
    forallb (fun e => negb (is_claim e)) rest = true.
Proof.
  exact (handlePreview_claims_once sample_world "preview:team:proj|secret"
           (preview_options None)
           (state_with {[ "VERCEL_GIT_COMMIT_REF" := "main" ]})
           "feature" None tt eq_refl (or_introl eq_refl) eq_refl eq_refl).
Defined.

(** The preview flow up to the end of the function run, when every
    collaborator answers. *)
Lemma handlePreview_pushed
    (w : World) (configuredDeployKey : string) (options : CmdOptions) (st st' : State)
    (name : string) (configuredDeployment : option string)
    (selection : ProjectSelection w) (data : ClaimData) :
  truthy (dryRun options) = false ->
  coalesce (optional (previewCreate options))
    (gitBranchFromEnvironment w (env st)) = Some name ->
  getConfiguredDeployment w (env st) = Done configuredDeployment ->
  projectSelection w configuredDeployment configuredDeployKey = Done selection ->
  bigBrainAPI w "POST" "claim_preview_deployment" selection name = Done data ->
  runCommand w (previewRunCommandOptions options data)
    {| env := env st; fs := fs st;
       trace := trace st ++ [BigBrainAPI "POST" "claim_preview_deployment" name] |} =
    (Done tt, st') ->
  runPush w (previewPushOptions options data) = Done tt ->
  (forall functionName,
     previewRun options = Some functionName ->
     runFunctionAndLog w (cd_instanceUrl data) (cd_adminKey data) functionName =
       Done tt) ->
  handlePreview w configuredDeployKey options st =
    (if truthy (logDeploymentName options) then
       deploymentName ← deploymentNameFromAdminKeyOrCrash (cd_adminKey data);
       logOutput deploymentName
     else mret tt)
      {| env := env st'; fs := fs st';
         trace := trace st' ++ previewPushEvents options data |}.
Proof.
  intros Hdry Hname Hconf Hsel Hclaim Hrun Hpush Hfn.
  unfold handlePreview.
  step_bind. unfold get_env at 1. cbv beta iota. rewrite Hname.
  step_bind. unfold mret at 1. unfold M_ret at 1. cbv beta iota. rewrite Hdry.
  step_bind. unfold get_env at 1. cbv beta iota.
  step_bind. unfold ask at 1. rewrite Hconf.
  step_bind. unfold ask at 1. rewrite Hsel.
  step_bind. unfold call at 1. rewrite Hclaim. cbn [env fs trace].
  step_bind. fold (previewRunCommandOptions options data). rewrite Hrun.
  step_bind. unfold showSpinner at 1. unfold emit at 1. cbv beta iota.
  step_bind. fold (previewPushOptions options data). unfold call at 1.
  rewrite Hpush. cbn [env fs trace].
  step_bind. unfold logFinishedStep at 1. unfold emit at 1. cbv beta iota.
  cbn [env fs trace].
  step_bind. unfold previewPushEvents.
  destruct (previewRun options) as [functionName|].
  - step_bind. unfold call at 1. rewrite (Hfn functionName eq_refl).
    unfold logFinishedStep at 1. unfold emit at 1. cbn [env fs trace].
    rewrite <- !app_assoc. reflexivity.
  - unfold mret at 1. unfold M_ret at 1. cbv beta iota.
    rewrite <- !app_assoc. reflexivity.
Qed.

(** X20: when every collaborator answers, the real preview flow ends
    normally after, in this order, the claim, the command, the spinner,
    a push that is never a dry run and uses the key and the URL the claim
    API returned, the report of the deployment, and, with
    [--preview-run], the function run and its report. *)
Theorem handlePreview_deploys
    (w : World) (configuredDeployKey : string) (options : CmdOptions) (st st' : State)
    (name : string) (configuredDeployment : option string)
    (selection : ProjectSelection w) (data : ClaimData) :
  truthy (dryRun options) = false ->
  coalesce (optional (previewCreate options))
    (gitBranchFromEnvironment w (env st)) = Some name ->
  getConfiguredDeployment w (env st) = Done configuredDeployment ->
  projectSelection w configuredDeployment configuredDeployKey = Done selection ->
  bigBrainAPI w "POST" "claim_preview_deployment" selection name = Done data ->
  runCommand w (previewRunCommandOptions options data)
    {| env := env st; fs := fs st;
       trace := trace st ++ [BigBrainAPI "POST" "claim_preview_deployment" name] |} =
    (Done tt, st') ->
  runPush w (previewPushOptions options data) = Done tt ->
  (forall functionName,
     previewRun options = Some functionName ->
     runFunctionAndLog w (cd_instanceUrl data) (cd_adminKey data) functionName =
       Done tt) ->
  truthy (logDeploymentName options) = false ->
  handlePreview w configuredDeployKey options st =
    (Done tt,
     {| env := env st'; fs := fs st';
        trace := trace st' ++ previewPushEvents options data |}).
Proof.
  intros Hdry Hname Hconf Hsel Hclaim Hrun Hpush Hfn Hlog.
  rewrite (handlePreview_pushed w configuredDeployKey options st st' name
             configuredDeployment selection data) by assumption.
  rewrite Hlog. reflexivity.
Qed.

Lemma handlePreview_deploys_witness :
  handlePreview sample_world "preview:team:proj|secret"
    (command_options None None) (state_with ∅) =
    (Done tt,
     {| env := ∅; fs := ∅;
        trace :=
          [BigBrainAPI "POST" "claim_preview_deployment" "feature";
           ShowSpinner "Deploying to https://<PREVIEW DEPLOYMENT>.convex.cloud...";
           RunPush {| po_adminKey := "preview:team:proj|secret";
                      po_verbose := false; po_dryRun := false;
                      po_typecheck := TcTry; po_debug := false;
                      po_debugBundlePath := None; po_codegen := true;
                      po_url := "https://<PREVIEW DEPLOYMENT>.convex.cloud" |};
           LogFinishedStep
             "Deployed Convex functions to https://<PREVIEW DEPLOYMENT>.convex.cloud";
           RunFunctionAndLog "https://<PREVIEW DEPLOYMENT>.convex.cloud"
             "preview:team:proj|secret" "init";
           LogFinishedStep ("Finished running function " +:+ dq +:+ "init" +:+ dq)] |}).
Proof.
  exact (handlePreview_deploys sample_world "preview:team:proj|secret"
           (command_options None None) (state_with ∅)
           {| env := ∅; fs := ∅;
              trace := [BigBrainAPI "POST" "claim_preview_deployment" "feature"] |}
           "feature" None tt
           {| cd_adminKey := "preview:team:proj|secret";
              cd_instanceUrl := PLACEHOLDER_URL |}
           eq_refl eq_refl eq_refl eq_refl eq_refl eq_refl eq_refl
           (fun _ _ => eq_refl) eq_refl).
Defined.

(** X21: with [--log-deployment-name] the preview flow prints, after the
    push, the name held by the key the claim API returned; when that key
    holds none, as every key whose type is not ["prod"], the command
    logs a failure and ends with exit code 1 although the push is
    done. *)
Theorem handlePreview_log_deployment_name
    (w : World) (configuredDeployKey : string) (options : CmdOptions) (st st' : State)
    (name : string) (configuredDeployment : option string)
    (selection : ProjectSelection w) (data : ClaimData) :
  truthy (dryRun options) = false ->
  coalesce (optional (previewCreate options))
    (gitBranchFromEnvironment w (env st)) = Some name ->
  getConfiguredDeployment w (env st) = Done configuredDeployment ->
  projectSelection w configuredDeployment configuredDeployKey = Done selection ->
  bigBrainAPI w "POST" "claim_preview_deployment" selection name = Done data ->
  runCommand w (previewRunCommandOptions options data)
    {| env := env st; fs := fs st;
       trace := trace st ++ [BigBrainAPI "POST" "claim_preview_deployment" name] |} =
    (Done tt, st') ->
  runPush w (previewPushOptions options data) = Done tt ->
  (forall functionName,
     previewRun options = Some functionName ->
     runFunctionAndLog w (cd_instanceUrl data) (cd_adminKey data) functionName =
       Done tt) ->
  truthy (logDeploymentName options) = true ->
  (forall deploymentName,
     deploymentNameFromAdminKey (cd_adminKey data) = Some deploymentName ->
     handlePreview w configuredDeployKey options st =
       (Done tt,
        {| env := env st'; fs := fs st';
           trace := trace st' ++ previewPushEvents options data ++
                    [LogOutput deploymentName] |})) /\
  (deploymentTypeFromAdminKey (cd_adminKey data) <> "prod" ->
   handlePreview w configuredDeployKey options st =
     (Crashed 1,
      {| env := env st'; fs := fs st';
         trace := trace st' ++ previewPushEvents options data ++
                  [LogFailure "Please set CONVEX_DEPLOY_KEY to a new key which you can find on your Convex dashboard."] |})).
Proof.
  intros Hdry Hname Hconf Hsel Hclaim Hrun Hpush Hfn Hlog.
  rewrite (handlePreview_pushed w configuredDeployKey options st st' name
             configuredDeployment selection data) by assumption.
  rewrite Hlog. unfold deploymentNameFromAdminKeyOrCrash.
  split.
  - intros deploymentName ->.
    unfold mbind, M_bind, mret, M_ret, logOutput, emit. cbn [env fs trace].
    rewrite <- app_assoc. reflexivity.
  - intros Htype.
    assert (Hnone : deploymentNameFromAdminKey (cd_adminKey data) = None).
    { rewrite deploymentNameFromAdminKey_cases.
      destruct (negb (contains "|" (cd_adminKey data))); [reflexivity|].
      destruct (String.eqb_spec (deploymentTypeFromAdminKey (cd_adminKey data)) "prod");
        [contradiction|reflexivity]. }
    rewrite Hnone.
    unfold mbind, M_bind, logFailure, emit, crash. cbn [env fs trace].
    rewrite <- app_assoc. reflexivity.
Qed.

Lemma handlePreview_log_deployment_name_witness :
  (handlePreview sample_world "preview:team:proj|secret" log_name_options
     (state_with ∅)).1 = Crashed 1 /\
  In (RunPush (previewPushOptions log_name_options
                 {| cd_adminKey := "preview:team:proj|secret";
                    cd_instanceUrl := PLACEHOLDER_URL |}))
     (trace (handlePreview sample_world "preview:team:proj|secret" log_name_options
               (state_with ∅)).2).
Proof.
  assert (Htype : deploymentTypeFromAdminKey "preview:team:proj|secret" <> "prod")
    by (intros H; cbv in H; discriminate H).
  pose proof (proj2 (handlePreview_log_deployment_name sample_world
                       "preview:team:proj|secret" log_name_options (state_with ∅)
                       {| env := ∅; fs := ∅;
                          trace := [BigBrainAPI "POST" "claim_preview_deployment"
                                      "feature"] |}
                       "feature" None tt
                       {| cd_adminKey := "preview:team:proj|secret";
                          cd_instanceUrl := PLACEHOLDER_URL |}
                       eq_refl eq_refl eq_refl eq_refl eq_refl eq_refl eq_refl
                       (fun _ _ => eq_refl) eq_refl) Htype) as Hrun.
  rewrite Hrun. split; [reflexivity|].
  right. right. left. reflexivity.
Defined.

Lemma handlePreview_emits_no_production (w : World) (key : string) (options : CmdOptions) :
  emits (fun e => match e with FetchDeploymentCredentials | Prompt _ => false | _ => true end)
    (handlePreview w key options).
Proof.
  unfold handlePreview, deploymentNameFromAdminKeyOrCrash.
  emits_auto; apply runCommand_emits; intros []; (discriminate || reflexivity).
Qed.

(** X22: with a configured deploy key of type ["preview"] the command
    never fetches the credentials of the production deployment and never
    asks for a confirmation, with or without [--yes]. *)
Theorem deploy_preview_never_production
    (w : World) (cmdOptions : CmdOptions) (st : State) :
  keyHasType
    (coalesce (optional (readAdminKeyFromEnvVar w
                           (storeAdminKeyEnvVar w (adminKey cmdOptions) (env st))))
       None) "preview" = true ->
  exists new,
    trace (deploy w cmdOptions st).2 = trace st ++ new /\
    forallb (fun e => match e with
                      | FetchDeploymentCredentials | Prompt _ => false
                      | _ => true
                      end) new = true.
Proof.
  intros Hkey.
  change (emits_at (fun e => match e with
                             | FetchDeploymentCredentials | Prompt _ => false
                             | _ => true
                             end) (deploy w cmdOptions) st).
  unfold deploy.
  apply emits_at_bind; [apply emits_get_env|]. intros e st1 [= <- <-].
  apply emits_at_bind; [apply emits_set_env|]. intros [] st2 [= <-].
  apply emits_at_bind; [apply emits_get_env|]. intros e st3 [= <- <-].
  cbn [env].
  match goal with
  | |- emits_at ?P ?k _ => cut (emits P k)
  end.
  { intros Hk. apply Hk. }
  unfold keyHasType in Hkey.
  destruct (coalesce _ None) as [key|]; [|discriminate Hkey].
  rewrite Hkey. emits_auto; apply handlePreview_emits_no_production.
Qed.

Lemma deploy_preview_never_production_witness :
  exists new,
    trace (deploy sample_world (command_options None None)
             (state_with {[ "CONVEX_DEPLOY_KEY" := "preview:team:proj|secret" ]})).2 =
      [] ++ new /\
    forallb (fun e => match e with
                      | FetchDeploymentCredentials | Prompt _ => false
                      | _ => true
                      end) new = true.
Proof.
  exact (deploy_preview_never_production sample_world (command_options None None)
           (state_with {[ "CONVEX_DEPLOY_KEY" := "preview:team:proj|secret" ]})
           eq_refl).
Defined.

Lemma writeDeploymentEnvVar_unchanged (w : World) (deploymentType : DeploymentType)
    (deployment : Deployment) (st : State) :
  changesToEnvVarFile w (fs st !! ".env.local") deploymentType deployment = None ->
  (writeDeploymentEnvVar w deploymentType deployment st).1 = Done false.
Proof.
  intros Hnone.
  unfold writeDeploymentEnvVar, mbind, M_bind, get_fs, get_env, set_env. simpl.
  unfold ENV_VAR_FILE_PATH. rewrite Hnone. reflexivity.
Qed.

(** X23: once [writeDeploymentEnvVar] has written [.env.local], the next
    call, for any deployment, reports [wroteToGitIgnore: false]: the
    first call has left a [.gitignore] that covers the file. *)
Theorem writeDeploymentEnvVar_gitignore_once
    (w : World) (deploymentType deploymentType' : DeploymentType)
    (deployment deployment' : Deployment) (st : State) (changed : string) :
  changesToEnvVarFile w (fs st !! ".env.local") deploymentType deployment = Some changed ->
  (writeDeploymentEnvVar w deploymentType' deployment'
     (writeDeploymentEnvVar w deploymentType deployment st).2).1 = Done false.
Proof.
  intros Hchanged.
  assert (Hcovered : exists content,
             fs (writeDeploymentEnvVar w deploymentType deployment st).2 !! ".gitignore" =
               Some content /\
             existsb ignoresEnvVarFile (split "010" content) = true).
  { rewrite (writeDeploymentEnvVar_changed w deploymentType deployment st changed Hchanged).
    match goal with
    | |- context [gitIgnoreEnvVarFile ?s] =>
        destruct (gitIgnoreEnvVarFile_effect s) as (_ & (content & Hfile & Hcov & _) & _)
    end.
    exists content. split; assumption. }
  destruct Hcovered as (content & Hfile & Hcov).
  generalize dependent (writeDeploymentEnvVar w deploymentType deployment st).2.
  intros st1 Hfile.
  destruct (changesToEnvVarFile w (fs st1 !! ".env.local") deploymentType' deployment')
    as [changed'|] eqn:Hsecond.
  - rewrite (writeDeploymentEnvVar_changed w deploymentType' deployment' st1 changed' Hsecond).
    match goal with
    | |- context [gitIgnoreEnvVarFile ?s] =>
        destruct (gitIgnoreEnvVarFile_effect s) as (Hres & _)
    end.
    rewrite Hres. cbn [fs]. rewrite lookup_insert_ne by discriminate.
    rewrite Hfile. change (default "" (Some content)) with content.
    rewrite Hcov. reflexivity.
  - apply writeDeploymentEnvVar_unchanged, Hsecond.
Qed.

Lemma writeDeploymentEnvVar_gitignore_once_witness :
  (writeDeploymentEnvVar writing_world Prod
     {| team := "t"; project := "p"; deploymentName := "happy-otter-123" |}
     (writeDeploymentEnvVar writing_world Dev
        {| team := "t"; project := "p"; deploymentName := "d1234" |}
        (state_with ∅)).2).1 = Done false.
Proof.
  exact (writeDeploymentEnvVar_gitignore_once writing_world Dev Prod
           {| team := "t"; project := "p"; deploymentName := "d1234" |}
           {| team := "t"; project := "p"; deploymentName := "happy-otter-123" |}
           (state_with ∅) "CONVEX_DEPLOYMENT=dev:d1234" eq_refl).
Defined.
